(** * mukia-engine: the OBJ-to-JSON mesh converter, [tools/mesh_converter.py]

    A shallow embedding of the converter script and the properties of its
    specification.

    The script is Python, so three layers appear below:

    - [Py]: the behaviour of the Python built-ins the script calls
      ([str.strip], [str.split], [int], [float], file iteration,
      [pathlib.Path.suffixes]), on text whose code points are below 256
      (one Rocq [ascii] per code point);
    - [Eff]: exceptions and mutable state, as a state-and-exception monad
      in which the state survives a raise, as a mutated Python object does;
    - [MeshConverter]: the script itself, function by function.

    Floating-point values are IEEE binary64 numbers, represented by the
    standard library's [spec_float].

    What the model takes as given:

    - the text of a file is what decoding its bytes gives;
    - paths are read as [pathlib] reads them on a POSIX system;
    - the limit on the digits that [int] accepts is at its default;
    - [json.dumps] is followed up to the JSON value it writes, or the
      [ValueError] of an integer it cannot write, not to the characters of
      its output;
    - whether a file can be opened, whether a write reaches it and
      whether the standard output takes a text are for the world to say. *)

From Stdlib Require Import ZArith List Bool Ascii String Lia.
From Stdlib Require Import DecimalString.
From Stdlib Require Import Floats.SpecFloat Floats.FloatOps.
Import ListNotations.

Local Open Scope string_scope.
Local Open Scope list_scope.

(* ================================================================== *)
(** * Python built-ins *)
(* ================================================================== *)

Module Py.

(** ** Characters *)

Definition LF : ascii := "010"%char.
Definition CR : ascii := "013"%char.
Definition SPACE : ascii := " "%char.

Definition code (c : ascii) : N := N_of_ascii c.

(** C's [Py_ISSPACE]: tab, line feed, vertical tab, form feed, carriage
    return and space. *)
Definition is_c_space (c : ascii) : bool :=
  ((9 <=? code c) && (code c <=? 13) || (code c =? 32))%N.

(** [str.isspace] on one character below 256: the C white space, the four
    separators U+001C..U+001F, NEL (U+0085) and the no-break space
    (U+00A0). *)
Definition isspace (c : ascii) : bool :=
  (is_c_space c
   || ((28 <=? code c) && (code c <=? 31))
   || (code c =? 133) || (code c =? 160))%N.

Definition is_digit (c : ascii) : bool :=
  ((48 <=? code c) && (code c <=? 57))%N.

Definition digit_val (c : ascii) : Z := Z.of_N (code c) - 48.

(** [Py_TOLOWER]: ASCII letters only. *)
Definition tolower (c : ascii) : ascii :=
  if ((65 <=? code c) && (code c <=? 90))%N
  then ascii_of_N (code c + 32) else c.

(** ** [str.strip], [str.split] *)

Fixpoint lstrip_by (p : ascii -> bool) (s : string) : string :=
  match s with
  | EmptyString => EmptyString
  | String c r => if p c then lstrip_by p r else s
  end.

Fixpoint rstrip_by (p : ascii -> bool) (s : string) : string :=
  match s with
  | EmptyString => EmptyString
  | String c r =>
      match rstrip_by p r with
      | EmptyString => if p c then EmptyString else String c EmptyString
      | r' => String c r'
      end
  end.

Definition strip_by (p : ascii -> bool) (s : string) : string :=
  lstrip_by p (rstrip_by p s).

(** [s.strip()] *)
Definition strip (s : string) : string := strip_by isspace s.

(** [s.split(sep)] for a separator of one character: the result is never
    empty, and empty fields are kept. *)
Fixpoint split (sep : ascii) (s : string) : list string :=
  match s with
  | EmptyString => [EmptyString]
  | String c r =>
      if Ascii.eqb c sep then EmptyString :: split sep r
      else match split sep r with
           | [] => [String c EmptyString]
           | h :: t => String c h :: t
           end
  end.

(** [x in l] for a list of strings. *)
Definition contains (l : list string) (x : string) : bool :=
  existsb (String.eqb x) l.

(** ** Iterating over a text file

    [for line in f] on a file opened in text mode with universal newlines:
    a line ends at LF, CR or CR LF, each delivered as one LF; the last line
    has no terminator when the text does not end with one. *)
Fixpoint iter_lines (s : string) : list string :=
  match s with
  | EmptyString => []
  | String c r =>
      if Ascii.eqb c LF then String LF EmptyString :: iter_lines r
      else if Ascii.eqb c CR then
        String LF EmptyString ::
        match r with
        | String c' r' => if Ascii.eqb c' LF then iter_lines r' else iter_lines r
        | EmptyString => []
        end
      else match iter_lines r with
           | [] => [String c EmptyString]
           | l :: ls => String c l :: ls
           end
  end.

(** ** [int(s)]

    Before parsing, CPython maps the white space above U+007E to a space;
    any other character above U+007E is no part of a number, and is
    rejected by the grammar below as it stands. *)
Definition space_to_ascii (c : ascii) : ascii :=
  if ((code c =? 133) || (code c =? 160))%N then SPACE else c.

Fixpoint map_string (f : ascii -> ascii) (s : string) : string :=
  match s with
  | EmptyString => EmptyString
  | String c r => String (f c) (map_string f r)
  end.

(** What is left of the argument of [int] or [float] once the white space
    around it is gone. *)
Definition numeric_body (s : string) : string :=
  strip_by is_c_space (map_string space_to_ascii s).

(** An optional sign: [(negative, rest)]. *)
Definition take_sign (s : string) : bool * string :=
  match s with
  | String "+" r => (false, r)
  | String "-" r => (true, r)
  | _ => (false, s)
  end.

(** Decimal digits with single underscores between them; [after_digit]
    tells whether the previous character was a digit. *)
Fixpoint int_digits (after_digit : bool) (s : string) : option (list Z) :=
  match s with
  | EmptyString => if after_digit then Some [] else None
  | String c r =>
      if is_digit c then option_map (cons (digit_val c)) (int_digits true r)
      else if Ascii.eqb c "_" then
        if after_digit then int_digits false r else None
      else None
  end.

Definition of_digits (ds : list Z) : Z :=
  fold_left (fun acc d => 10 * acc + d)%Z ds 0%Z.

(** [sys.get_int_max_str_digits()], at its default. *)
Definition int_max_str_digits : nat := 4300.

(** [int(s)]: [None] stands for [ValueError]. *)
Definition int (s : string) : option Z :=
  let (neg, body) := take_sign (numeric_body s) in
  match int_digits false body with
  | None => None
  | Some ds =>
      if Nat.ltb int_max_str_digits (List.length ds) then None
      else Some (if neg then - of_digits ds else of_digits ds)%Z
  end.

(** [str(n)] and [repr(n)] raise [ValueError] on an integer of more
    decimal digits than the same limit, the sign not counted:
    [int_str_ok n] tells that [n] can be written. *)
Definition int_str_ok (n : Z) : bool :=
  (Z.abs n <? 10 ^ Z.of_nat int_max_str_digits)%Z.

(** ** [float(s)]

    Underscores are accepted between two digits and nowhere else; they are
    checked and removed before the number is read. *)
Inductive prev_kind := PDigit | PUnder | POther.

Fixpoint remove_underscores (prev : prev_kind) (s : string) : option string :=
  match s with
  | EmptyString => match prev with PUnder => None | _ => Some EmptyString end
  | String c r =>
      if Ascii.eqb c "_" then
        match prev with PDigit => remove_underscores PUnder r | _ => None end
      else if is_digit c then
        option_map (String c) (remove_underscores PDigit r)
      else
        match prev with
        | PUnder => None
        | _ => option_map (String c) (remove_underscores POther r)
        end
  end.

Fixpoint span_digits (s : string) : list Z * string :=
  match s with
  | EmptyString => ([], EmptyString)
  | String c r =>
      if is_digit c
      then let (ds, rest) := span_digits r in (digit_val c :: ds, rest)
      else ([], s)
  end.

(** The exponent part, which must reach the end of the string: nothing, or
    [e] or [E], an optional sign and at least one digit. *)
Definition parse_exponent (s : string) : option Z :=
  match s with
  | EmptyString => Some 0%Z
  | String c r =>
      if Ascii.eqb (tolower c) "e" then
        let (neg, r') := take_sign r in
        match span_digits r' with
        | (d :: ds, EmptyString) =>
            Some (if neg then - of_digits (d :: ds) else of_digits (d :: ds))%Z
        | _ => None
        end
      else None
  end.

(** A decimal literal as read by [strtod]: optional sign, digits, optional
    point and digits (one digit at least on either side), optional
    exponent. The result is the sign, the digits of the mantissa and the
    power of ten they are scaled by. *)
Definition parse_decimal (s : string) : option (bool * list Z * Z) :=
  let (neg, r) := take_sign s in
  let (ip, r1) := span_digits r in
  let (fp, r2) := match r1 with
                  | String "." r' => span_digits r'
                  | _ => ([], r1)
                  end in
  match ip ++ fp with
  | [] => None
  | ds => match parse_exponent r2 with
          | Some e => Some (neg, ds, (e - Z.of_nat (List.length fp))%Z)
          | None => None
          end
  end.

(** [istarts pre s]: [s] without the prefix [pre], compared without regard
    to the case of ASCII letters ([pre] is in lower case). *)
Fixpoint istarts (pre s : string) : option string :=
  match pre, s with
  | EmptyString, _ => Some s
  | String p pre', String c r =>
      if Ascii.eqb (tolower c) p then istarts pre' r else None
  | String _ _, EmptyString => None
  end.

Definition parse_inf_or_nan (s : string) : option spec_float :=
  let (neg, r) := take_sign s in
  match istarts "inf" r with
  | Some r1 =>
      let r2 := match istarts "inity" r1 with Some r2 => r2 | None => r1 end in
      match r2 with
      | EmptyString => Some (S754_infinity neg)
      | _ => None
      end
  | None =>
      match istarts "nan" r with
      | Some EmptyString => Some S754_nan
      | _ => None
      end
  end.

(** The binary64 number nearest to [(-1)^neg * ds * 10^e], ties to even.
    A mantissa of [n] digits is below [10^n]: beyond the two cut-offs the
    result is an infinity or a zero whatever the digits are. *)
Definition round_decimal (neg : bool) (ds : list Z) (e : Z) : spec_float :=
  let m := of_digits ds in
  if (m =? 0)%Z then S754_zero neg
  else if (400 <? e)%Z then S754_infinity neg
  else if (e <? - (Z.of_nat (List.length ds) + 400))%Z then S754_zero neg
  else
    let num := (m * 10 ^ Z.max e 0)%Z in
    let den := (10 ^ Z.max (- e) 0)%Z in
    let '(q, e2, l) := SFdiv_core_binary prec emax num 0 den 0 in
    binary_round_aux prec emax neg q e2 l.

(** [float(n)] for an integer [n]: the binary64 number nearest to it. *)
Definition float_of_Z (n : Z) : spec_float :=
  binary_normalize prec emax n 0 false.

(** [float(s)]: [None] stands for [ValueError]. *)
Definition float (s : string) : option spec_float :=
  match remove_underscores POther (numeric_body s) with
  | None => None
  | Some t =>
      match parse_decimal t with
      | Some (neg, ds, e) => Some (round_decimal neg ds e)
      | None => parse_inf_or_nan t
      end
  end.

(** ** Lists: [l[i]], [l[1:]], [enumerate(l)] *)

(** [l[i]]: a negative index counts from the end; [None] stands for
    [IndexError]. *)
Definition index {A} (l : list A) (i : Z) : option A :=
  let n := Z.of_nat (List.length l) in
  if (0 <=? i)%Z then nth_error l (Z.to_nat i)
  else if (- n <=? i)%Z then nth_error l (Z.to_nat (n + i))
  else None.

Fixpoint enumerate_from {A} (i : Z) (l : list A) : list (Z * A) :=
  match l with
  | [] => []
  | a :: r => (i, a) :: enumerate_from (i + 1) r
  end.

Definition enumerate {A} (l : list A) : list (Z * A) := enumerate_from 0 l.

(** ** [pathlib.Path(p).suffixes], POSIX flavour *)

Definition nonempty (s : string) : bool :=
  match s with EmptyString => false | _ => true end.

(** The components of a path: the fields between slashes, without the
    empty ones and the single dots. *)
Definition path_tail (p : string) : list string :=
  filter (fun x => nonempty x && negb (String.eqb x ".")) (split "/" p).

(** [Path(p).name] *)
Definition path_name (p : string) : string := List.last (path_tail p) "".

Fixpoint ends_with_dot (s : string) : bool :=
  match s with
  | EmptyString => false
  | String c EmptyString => Ascii.eqb c "."
  | String _ r => ends_with_dot r
  end.

(** [Path(p).suffixes] *)
Definition suffixes (p : string) : list string :=
  let name := path_name p in
  if ends_with_dot name then []
  else map (String ".") (List.tl (split "." (lstrip_by (Ascii.eqb ".") name))).

(** ** [str(n)] for a length *)
Definition str_of_nat (n : nat) : string :=
  NilEmpty.string_of_uint (Nat.to_uint n).

End Py.

(* ================================================================== *)
(** * Exceptions and state *)
(* ================================================================== *)

Module Eff.

(** The exceptions that the script raises, by class; the two the script
    raises itself carry their message. *)
Inductive exn :=
| Exception (msg : string)
| NameError (msg : string)
| ValueError
| IndexError
| OSError.

(** A computation over a mutable state [St]: it returns or raises, and
    leaves a state behind in both cases. *)
Definition M (St A : Type) : Type := St -> (exn + A) * St.

Definition ret {St A} (a : A) : M St A := fun s => (inr a, s).

Definition raise {St A} (e : exn) : M St A := fun s => (inl e, s).

Definition bind {St A B} (m : M St A) (k : A -> M St B) : M St B :=
  fun s =>
    match m s with
    | (inr a, s') => k a s'
    | (inl e, s') => (inl e, s')
    end.

Definition modify {St} (f : St -> St) : M St unit := fun s => (inr tt, f s).

(** An [option] from a built-in, raising [e] on [None]. *)
Definition or_raise {St A} (e : exn) (o : option A) : M St A :=
  match o with
  | Some a => ret a
  | None => raise e
  end.

Declare Scope eff_scope.
Delimit Scope eff_scope with eff.

Notation "x <- m ;; k" := (bind m (fun x => k))
  (at level 61, m at next level, right associativity) : eff_scope.
Notation "m ;; k" := (bind m (fun _ => k))
  (at level 61, right associativity) : eff_scope.

Local Open Scope eff_scope.

(** [for x in l: body(x)] *)
Fixpoint for_each {St A} (l : list A) (body : A -> M St unit) : M St unit :=
  match l with
  | [] => ret tt
  | a :: r => body a ;; for_each r body
  end.

(** A computation on an object local to the caller, started in [init];
    the caller keeps its own state, and gets the object back when the
    computation returns. *)
Definition with_local {St L A} (init : L) (m : M L A) : M St L :=
  fun s =>
    match m init with
    | (inr _, l) => (inr l, s)
    | (inl e, _) => (inl e, s)
    end.

End Eff.

(* ================================================================== *)
(** * The script *)
(* ================================================================== *)

Module MeshConverter.

Import Eff.
Local Open Scope eff_scope.

(** ** Data *)

(** An entry of ["Vertices"]: [{"X": x, "Y": y, "Z": z}]. *)
Record Vertex := mkVertex { vX : spec_float; vY : spec_float; vZ : spec_float }.

(** An entry of ["UVs"]: [{"X": u, "Y": v}]. *)
Record UV := mkUV { uvX : spec_float; uvY : spec_float }.

(** The dictionary [parsed], with its four keys. *)
Record MeshDocument := mkDoc {
  Vertices : list Vertex;
  Indices : list Z;
  UVs : list UV;
  PrimitiveType : Z
}.

(** JSON values, as [json.dumps] writes them; the members of an object
    are in the order of insertion. *)
#[warnings="-register-all"]
Inductive json :=
| JInt (n : Z)
| JFloat (x : spec_float)
| JArray (items : list json)
| JObject (members : list (string * json)).

Definition json_of_vertex (v : Vertex) : json :=
  JObject [("X", JFloat (vX v)); ("Y", JFloat (vY v)); ("Z", JFloat (vZ v))].

Definition json_of_uv (t : UV) : json :=
  JObject [("X", JFloat (uvX t)); ("Y", JFloat (uvY t))].

(** The JSON value of the dictionary [parsed]. *)
Definition json_value (parsed : MeshDocument) : json :=
  JObject [("Vertices", JArray (map json_of_vertex (Vertices parsed)));
           ("Indices", JArray (map JInt (Indices parsed)));
           ("UVs", JArray (map json_of_uv (UVs parsed)));
           ("PrimitiveType", JInt (PrimitiveType parsed))].

(** [json.dumps(parsed)]: the JSON value of the dictionary, when each of
    its integers can be written; [None] stands for the [ValueError] of an
    integer that has too many digits. Floats are always written, the
    infinities and NaN too. *)
Definition json_dumps (parsed : MeshDocument) : option json :=
  if forallb Py.int_str_ok (Indices parsed) && Py.int_str_ok (PrimitiveType parsed)
  then Some (json_value parsed)
  else None.

(** The member [key] of an object. *)
Definition json_member (key : string) (j : json) : option json :=
  match j with
  | JObject ms =>
      option_map snd (find (fun kv => String.eqb (fst kv) key) ms)
  | _ => None
  end.

(** ** The world outside

    What the script can observe is the text of the files it may open,
    whether a path can be opened for writing, whether what is written
    there reaches the file, and whether the standard output takes a text;
    what it does is recorded as a trace of events, oldest first. A call of [open] is recorded whether it succeeds or not,
    so that a trace without [EOpen] is a run that did not go to the file
    system at all. *)

(** How [print] can fail: the text cannot be encoded for the standard
    output or the stream is closed ([UnicodeEncodeError] and the error of
    a closed file are [ValueError]s), or the system refuses the write (an
    [OSError], a broken pipe for instance). *)
Inductive print_failure := PrintValueError | PrintOSError.

Definition exn_of_print_failure (f : print_failure) : exn :=
  match f with
  | PrintValueError => ValueError
  | PrintOSError => OSError
  end.

Record Env := mkEnv {
  read_text : string -> option string;
  can_write : string -> bool;
  write_fails : string -> bool;
  print_fails : string -> option print_failure
}.

(** [EWrite]: the data are in the file, which is closed. [EWriteFailed]:
    the write, or the flush when the file is closed, was refused by the
    system; the file may hold a part of the data. *)
Inductive event :=
| EOpen (path : string) (mode : string)
| EWrite (path : string) (data : json)
| EWriteFailed (path : string)
| EPrint (text : string).

Definition Trace := list event.

Definition emit (e : event) : M Trace unit := modify (fun tr => tr ++ [e]).

(** [print(s)]: the text is printed, or the print raises. *)
Definition print (env : Env) (s : string) : M Trace unit :=
  match print_fails env s with
  | Some f => raise (exn_of_print_failure f)
  | None => emit (EPrint s)
  end.

(** [open(path, "r")], delivering the whole text of the file. *)
Definition open_read (env : Env) (path : string) : M Trace string :=
  emit (EOpen path "r") ;;
  or_raise OSError (read_text env path).

(** [with open(path, "w") as f: f.write(data)]: the open can raise, and
    so can the write, or the flush at the end of the [with]. *)
Definition write_file (env : Env) (path : string) (data : json) : M Trace unit :=
  emit (EOpen path "w") ;;
  if can_write env path then
    if write_fails env path then emit (EWriteFailed path) ;; raise OSError
    else emit (EWrite path data)
  else raise OSError.

(** ** Conversions that raise *)

Definition getitem {St A} (l : list A) (i : Z) : M St A :=
  or_raise IndexError (Py.index l i).

Definition float {St} (s : string) : M St spec_float :=
  or_raise ValueError (Py.float s).

Definition int {St} (s : string) : M St Z :=
  or_raise ValueError (Py.int s).

(** ** Constants *)

Definition VERT_NAME : string := "v".
Definition UV_NAME : string := "vt".
Definition INDICES_NAME : string := "f".

Definition VALID_VAR : list string := [VERT_NAME; UV_NAME; INDICES_NAME].

(** ** [parse_vert], [parse_uv], [parse_indices] *)

Definition append_Vertices (v : Vertex) : M MeshDocument unit :=
  modify (fun p => mkDoc (Vertices p ++ [v]) (Indices p) (UVs p) (PrimitiveType p)).

Definition append_UVs (t : UV) : M MeshDocument unit :=
  modify (fun p => mkDoc (Vertices p) (Indices p) (UVs p ++ [t]) (PrimitiveType p)).

Definition append_Indices (k : Z) : M MeshDocument unit :=
  modify (fun p => mkDoc (Vertices p) (Indices p ++ [k]) (UVs p) (PrimitiveType p)).

Definition parse_vert (pram : list string) : M MeshDocument unit :=
  p0 <- getitem pram 0 ;; x <- float p0 ;;
  p1 <- getitem pram 1 ;; y <- float p1 ;;
  p2 <- getitem pram 2 ;; z <- float p2 ;;
  append_Vertices (mkVertex x y z).

Definition parse_uv (pram : list string) : M MeshDocument unit :=
  p0 <- getitem pram 0 ;; u <- float p0 ;;
  p1 <- getitem pram 1 ;; v <- float p1 ;;
  append_UVs (mkUV u v).

Definition parse_indices (pram : list string) : M MeshDocument unit :=
  for_each (Py.enumerate pram) (fun i_ =>
    part <- getitem pram (fst i_) ;;
    let div := Py.split "/" part in
    d0 <- getitem div 0 ;;
    n <- int d0 ;;
    let mesh_index := (n - 1)%Z in
    append_Indices mesh_index).

(** ** [parse_mesh] *)

(** The dictionary at the start of [parse_mesh]. *)
Definition new_parsed : MeshDocument := mkDoc [] [] [] 4.

(** The body of the loop over the lines. *)
Definition parse_line (line : string) : M MeshDocument unit :=
  let line := Py.strip line in
  let sep := Py.split " " line in
  s0 <- getitem sep 0 ;;
  if negb (Py.contains VALID_VAR s0) then ret tt
  else
    let send := List.tl sep in
    if String.eqb s0 "v" then parse_vert send
    else if String.eqb s0 "vt" then parse_uv send
    else if String.eqb s0 "f" then parse_indices send
    else ret tt.

(** The loop, on the text of the file. *)
Definition parse_lines (lines : list string) : M MeshDocument unit :=
  for_each lines parse_line.

Definition parse_mesh (env : Env) (path : string) : M Trace MeshDocument :=
  f <- open_read env path ;;
  parsed <- with_local new_parsed (parse_lines (Py.iter_lines f)) ;;
  print env ("Parsed " ++ Py.str_of_nat (List.length (Vertices parsed)) ++ " vertices") ;;
  print env ("Parsed " ++ Py.str_of_nat (List.length (Indices parsed)) ++ " indices") ;;
  print env ("Parsed " ++ Py.str_of_nat (List.length (UVs parsed)) ++ " UVs") ;;
  ret parsed.

(** ** The main program, on [sys.argv] *)

Definition DQUOTE : string := String (ascii_of_nat 34) EmptyString.

Definition main (env : Env) (argv : list string) : M Trace unit :=
  if negb (Nat.eqb (List.length argv) 3) then
    raise (Exception "This script need two parameters (import and export files)")
  else
    mesh_path <- getitem argv 1 ;;
    export_path <- getitem argv 2 ;;
    suffix <- getitem (Py.suffixes mesh_path) (-1) ;;
    if negb (String.eqb suffix ".obj") then
      raise (NameError "This script only accepts .obj")
    else
      parsed <- parse_mesh env mesh_path ;;
      json_p <- or_raise ValueError (json_dumps parsed) ;;
      write_file env export_path json_p ;;
      print env ("Exported to file " ++ DQUOTE ++ export_path ++ DQUOTE).

(** A run starts with an empty trace. *)
Definition run (env : Env) (argv : list string) : (exn + unit) * Trace :=
  main env argv [].

(** The document that the text of a file parses to, or the exception. *)
Definition parse_text (text : string) : exn + MeshDocument :=
  match parse_lines (Py.iter_lines text) new_parsed with
  | (inr _, parsed) => inr parsed
  | (inl e, _) => inl e
  end.

(** ** Vocabulary of the specification *)

(** The tokens of a line, as the loop sees them; the first is the marker
    and the others are the parameters handed to the parsers. *)
Definition tokens (line : string) : list string :=
  Py.split " " (Py.strip line).

Definition marker (line : string) : string := List.hd "" (tokens line).

Definition params (line : string) : list string := List.tl (tokens line).

Definition has_marker (m line : string) : bool := String.eqb (marker line) m.

(** The marker is one of [v], [vt] and [f]. *)
Definition recognized (line : string) : bool :=
  Py.contains VALID_VAR (marker line).

(** The vertex index that a face reference names: the text before its
    first slash, read as an integer. *)
Definition vertex_ref (tok : string) : option Z :=
  Py.int (List.hd "" (Py.split "/" tok)).

(** A recognized line with a numeric field that does not convert: one of
    the three coordinates of a [v] line, one of the two of a [vt] line, or
    the vertex index of a reference of an [f] line. *)
Definition has_bad_number (line : string) : Prop :=
  (marker line = "v" /\
     exists t, In t (firstn 3 (params line)) /\ Py.float t = None) \/
  (marker line = "vt" /\
     exists t, In t (firstn 2 (params line)) /\ Py.float t = None) \/
  (marker line = "f" /\
     exists t, In t (params line) /\ vertex_ref t = None).

(** A [v] line with fewer than three parameters, or a [vt] line with fewer
    than two. *)
Definition short_line (line : string) : Prop :=
  (marker line = "v" /\ (List.length (params line) < 3)%nat) \/
  (marker line = "vt" /\ (List.length (params line) < 2)%nat).

(** The exceptions that parsing a line can raise. *)
Definition parse_failure (e : exn) : Prop := e = ValueError \/ e = IndexError.

(** What a line adds to a document that was empty before it. *)
Definition line_output (line : string) : MeshDocument :=
  snd (parse_line line new_parsed).

(** [extend p d]: the document [p] followed by the entries of [d]. *)
Definition extend (p d : MeshDocument) : MeshDocument :=
  mkDoc (Vertices p ++ Vertices d) (Indices p ++ Indices d)
        (UVs p ++ UVs d) (PrimitiveType p).

(** A computation that only appends: run on [p] followed by [q], it does
    what it does on [q], with [p] in front. *)
Definition framed {A} (m : M MeshDocument A) : Prop :=
  forall p q, m (extend p q) = (fst (m q), extend p (snd (m q))).

(** What [parse_indices] does with one reference. *)
Definition index_step (part : string) : M MeshDocument unit :=
  d0 <- getitem (Py.split "/" part) 0 ;;
  n <- int d0 ;;
  append_Indices (n - 1).

(** The final suffix of a path, as [main] reads it. *)
Definition final_suffix (path : string) : option string :=
  Py.index (Py.suffixes path) (-1).

(** The trace of [parse_mesh] when it returns: the input is opened and
    the three counts are printed. *)
Definition parsed_trace (inp : string) (parsed : MeshDocument) : Trace :=
  [EOpen inp "r";
   EPrint ("Parsed " ++ Py.str_of_nat (List.length (Vertices parsed)) ++ " vertices");
   EPrint ("Parsed " ++ Py.str_of_nat (List.length (Indices parsed)) ++ " indices");
   EPrint ("Parsed " ++ Py.str_of_nat (List.length (UVs parsed)) ++ " UVs")].

(** The trace of a run that succeeds: after the parsing, the output is
    opened, the document is written and the export is reported. *)
Definition success_trace (inp out : string) (parsed : MeshDocument) : Trace :=
  parsed_trace inp parsed ++
  [EOpen out "w";
   EWrite out (json_value parsed);
   EPrint ("Exported to file " ++ DQUOTE ++ out ++ DQUOTE)].

(** The trace of a run that parses the input and cannot open the output. *)
Definition unwritable_trace (inp out : string) (parsed : MeshDocument) : Trace :=
  parsed_trace inp parsed ++ [EOpen out "w"].

(** The trace of a run that opens the output and cannot write it. *)
Definition failed_write_trace (inp out : string) (parsed : MeshDocument) : Trace :=
  parsed_trace inp parsed ++ [EOpen out "w"; EWriteFailed out].

(** An event that writes a file, in full or in part. *)
Definition is_write (e : event) : bool :=
  match e with EWrite _ _ | EWriteFailed _ => true | _ => false end.

(** An event on the file system: anything but a print. *)
Definition touches_files (e : event) : bool :=
  match e with EPrint _ => false | _ => true end.

(** A world with one readable file, where every path can be written and
    every text printed. *)
Definition one_file (path text : string) : Env :=
  mkEnv (fun p => if String.eqb p path then Some text else None)
        (fun _ => true) (fun _ => false) (fun _ => None).

(** ** Vocabulary of the further properties *)

(** Every character of [s] is white space for [str.strip]. *)
Fixpoint all_space (s : string) : bool :=
  match s with
  | EmptyString => true
  | String c r => Py.isspace c && all_space r
  end.

(** No character of [s] is [c]. *)
Fixpoint lacks (c : ascii) (s : string) : bool :=
  match s with
  | EmptyString => true
  | String c' r => negb (Ascii.eqb c' c) && lacks c r
  end.

(** The text with a carriage return put before every line feed. *)
Fixpoint crlf (s : string) : string :=
  match s with
  | EmptyString => EmptyString
  | String c r =>
      if Ascii.eqb c Py.LF then String Py.CR (String Py.LF (crlf r))
      else String c (crlf r)
  end.

(** A line that is parsed without a raise, on its own. *)
Definition line_ok (line : string) : Prop :=
  fst (parse_line line new_parsed) = inr tt.

(** What the lines give, one after the other, from an empty document. *)
Definition join_outputs (lines : list string) : MeshDocument :=
  fold_left extend (map line_output lines) new_parsed.

(** [p] with the indices [ks] after its own. *)
Definition add_indices (p : MeshDocument) (ks : list Z) : MeshDocument :=
  mkDoc (Vertices p) (Indices p ++ ks) (UVs p) (PrimitiveType p).

(** The writes of a trace. *)
Definition writes (tr : Trace) : Trace := filter is_write tr.

(** The four texts that a run prints. *)
Definition vertices_message (parsed : MeshDocument) : string :=
  "Parsed " ++ Py.str_of_nat (List.length (Vertices parsed)) ++ " vertices".

Definition indices_message (parsed : MeshDocument) : string :=
  "Parsed " ++ Py.str_of_nat (List.length (Indices parsed)) ++ " indices".

Definition uvs_message (parsed : MeshDocument) : string :=
  "Parsed " ++ Py.str_of_nat (List.length (UVs parsed)) ++ " UVs".

Definition export_message (out : string) : string :=
  "Exported to file " ++ DQUOTE ++ out ++ DQUOTE.

(** [n] times the digit 9. *)
Fixpoint nines (n : nat) : string :=
  match n with
  | O => EmptyString
  | S m => String "9" (nines m)
  end.

End MeshConverter.

(* ================================================================== *)
(** * Properties *)
(* ================================================================== *)

Import Eff.
Import MeshConverter.
Local Open Scope eff_scope.

(** ** The monad *)

Lemma bind_ret_l {St A B} (a : A) (k : A -> M St B) : bind (ret a) k = k a.
Proof. reflexivity. Qed.

Lemma bind_returns {St A B} (m : M St A) (k : A -> M St B) s a s' :
  m s = (inr a, s') -> bind m k s = k a s'.
Proof. intros H. unfold bind. now rewrite H. Qed.

Lemma bind_raises {St A B} (m : M St A) (k : A -> M St B) s e s' :
  m s = (inl e, s') -> bind m k s = (inl e, s').
Proof. intros H. unfold bind. now rewrite H. Qed.

Lemma for_each_app {St A} (l1 l2 : list A) (body : A -> M St unit) s :
  for_each (l1 ++ l2) body s = (for_each l1 body ;; for_each l2 body) s.
Proof.
  revert s. induction l1 as [|a l1 IH]; intros s; simpl.
  - reflexivity.
  - unfold bind in *. destruct (body a s) as [[e|[]] s1].
    + reflexivity.
    + apply IH.
Qed.

(** ** Built-ins *)

Lemma split_not_nil sep s : Py.split sep s <> [].
Proof.
  destruct s as [|c r]; simpl.
  - discriminate.
  - destruct (Ascii.eqb c sep); [discriminate|].
    destruct (Py.split sep r); discriminate.
Qed.

Lemma split_hd sep s : Py.index (Py.split sep s) 0 = Some (hd "" (Py.split sep s)).
Proof.
  pose proof (split_not_nil sep s) as H.
  destruct (Py.split sep s); [contradiction|reflexivity].
Qed.

Lemma tokens_marker_params line : tokens line = marker line :: params line.
Proof.
  unfold marker, params, tokens.
  pose proof (split_not_nil " " (Py.strip line)) as H.
  destruct (Py.split " " (Py.strip line)); [contradiction|reflexivity].
Qed.

Lemma index_0 {A} (a : A) l : Py.index (a :: l) 0 = Some a.
Proof. reflexivity. Qed.

Lemma index_nat {A} (l : list A) (n : nat) :
  Py.index l (Z.of_nat n) = nth_error l n.
Proof.
  unfold Py.index.
  destruct (Z.leb_spec 0 (Z.of_nat n)); [|lia].
  now rewrite Nat2Z.id.
Qed.

Lemma index_app_here {A} (pre : list A) a suf :
  Py.index (pre ++ a :: suf) (Z.of_nat (List.length pre)) = Some a.
Proof.
  rewrite index_nat, nth_error_app2 by lia.
  now rewrite Nat.sub_diag.
Qed.

(** ** Computations that only append *)

Lemma extend_new_r p : extend p new_parsed = p.
Proof. destruct p; unfold extend; simpl. now rewrite !app_nil_r. Qed.

Lemma framed_ret {A} (a : A) : framed (ret a).
Proof. now intros p q. Qed.

Lemma framed_raise {A} e : framed (@raise _ A e).
Proof. now intros p q. Qed.

Lemma framed_or_raise {A} e (o : option A) : framed (or_raise e o).
Proof. destruct o; [apply framed_ret | apply framed_raise]. Qed.

Lemma framed_bind {A B} (m : M MeshDocument A) (k : A -> M MeshDocument B) :
  framed m -> (forall a, framed (k a)) -> framed (bind m k).
Proof.
  intros Hm Hk p q. unfold bind. rewrite Hm.
  destruct (m q) as [[e|a] q1]; simpl.
  - reflexivity.
  - apply Hk.
Qed.

Lemma framed_append_Vertices v : framed (append_Vertices v).
Proof.
  intros p q. unfold append_Vertices, modify, extend; simpl.
  now rewrite app_assoc.
Qed.

Lemma framed_append_UVs t : framed (append_UVs t).
Proof.
  intros p q. unfold append_UVs, modify, extend; simpl.
  now rewrite app_assoc.
Qed.

Lemma framed_append_Indices k : framed (append_Indices k).
Proof.
  intros p q. unfold append_Indices, modify, extend; simpl.
  now rewrite app_assoc.
Qed.

Lemma framed_for_each {A} (l : list A) (body : A -> M MeshDocument unit) :
  (forall a, framed (body a)) -> framed (for_each l body).
Proof.
  intros Hb. induction l as [|a l IH]; simpl.
  - apply framed_ret.
  - apply framed_bind; auto.
Qed.

Create HintDb framed.
#[local] Hint Resolve framed_ret framed_raise framed_or_raise
  framed_append_Vertices framed_append_UVs framed_append_Indices : framed.

Ltac framed_tac :=
  repeat first
    [ apply framed_bind; [|intro]
    | apply framed_for_each; intro
    | solve [auto with framed]
    | match goal with |- framed (if ?b then _ else _) => destruct b end ].

Lemma framed_parse_vert pram : framed (parse_vert pram).
Proof. unfold parse_vert, getitem, float. framed_tac. Qed.

Lemma framed_parse_uv pram : framed (parse_uv pram).
Proof. unfold parse_uv, getitem, float. framed_tac. Qed.

Lemma framed_parse_indices pram : framed (parse_indices pram).
Proof. unfold parse_indices, getitem, int. framed_tac. Qed.

Lemma framed_parse_line line : framed (parse_line line).
Proof.
  unfold parse_line. apply framed_bind.
  - apply framed_or_raise.
  - intros s0.
    destruct (negb (Py.contains VALID_VAR s0)); [apply framed_ret|].
    destruct (String.eqb s0 "v"); [apply framed_parse_vert|].
    destruct (String.eqb s0 "vt"); [apply framed_parse_uv|].
    destruct (String.eqb s0 "f"); [apply framed_parse_indices|apply framed_ret].
Qed.

Lemma framed_parse_lines lines : framed (parse_lines lines).
Proof. apply framed_for_each. intro. apply framed_parse_line. Qed.

(** Started from any document, a line does what it does on an empty one,
    after what was there. *)
Lemma parse_line_frame line p :
  parse_line line p = (fst (parse_line line new_parsed), extend p (line_output line)).
Proof.
  rewrite <- (extend_new_r p) at 1. apply framed_parse_line.
Qed.

(** The tag of the document is never assigned. *)
Lemma framed_PrimitiveType {A} (m : M MeshDocument A) p :
  framed m -> PrimitiveType (snd (m p)) = PrimitiveType p.
Proof.
  intros Hm. rewrite <- (extend_new_r p) at 1. now rewrite Hm.
Qed.

(** ** The parsers, case by case *)

Lemma parse_line_unfold line p :
  parse_line line p =
  if negb (recognized line) then (inr tt, p)
  else if String.eqb (marker line) "v" then parse_vert (params line) p
  else if String.eqb (marker line) "vt" then parse_uv (params line) p
  else if String.eqb (marker line) "f" then parse_indices (params line) p
  else (inr tt, p).
Proof.
  unfold parse_line. fold (tokens line).
  rewrite (tokens_marker_params line) at 1.
  unfold getitem at 1. rewrite index_0. cbn [or_raise]. rewrite bind_ret_l.
  unfold recognized, params.
  destruct (negb (Py.contains VALID_VAR (marker line))); [reflexivity|].
  destruct (String.eqb (marker line) "v"); [reflexivity|].
  destruct (String.eqb (marker line) "vt"); [reflexivity|].
  destruct (String.eqb (marker line) "f"); reflexivity.
Qed.

Lemma recognized_iff line :
  recognized line = true <->
  marker line = "v" \/ marker line = "vt" \/ marker line = "f".
Proof.
  unfold recognized, Py.contains, VALID_VAR, VERT_NAME, UV_NAME, INDICES_NAME.
  cbn [existsb]. rewrite !orb_true_iff, !String.eqb_eq.
  intuition discriminate.
Qed.

Lemma parse_line_v line p :
  marker line = "v" -> parse_line line p = parse_vert (params line) p.
Proof.
  intros H. rewrite parse_line_unfold.
  replace (recognized line) with true
    by (symmetry; apply recognized_iff; tauto).
  now rewrite H.
Qed.

Lemma parse_line_vt line p :
  marker line = "vt" -> parse_line line p = parse_uv (params line) p.
Proof.
  intros H. rewrite parse_line_unfold.
  replace (recognized line) with true
    by (symmetry; apply recognized_iff; tauto).
  now rewrite H.
Qed.

Lemma parse_line_f line p :
  marker line = "f" -> parse_line line p = parse_indices (params line) p.
Proof.
  intros H. rewrite parse_line_unfold.
  replace (recognized line) with true
    by (symmetry; apply recognized_iff; tauto).
  now rewrite H.
Qed.

Lemma parse_line_skip line p :
  recognized line = false -> parse_line line p = (inr tt, p).
Proof. intros H. rewrite parse_line_unfold. now rewrite H. Qed.

(** [parse_vert], by the shape of its argument. *)
Lemma parse_vert_cases pram p :
  parse_vert pram p =
  match pram with
  | [] => (inl IndexError, p)
  | a :: r =>
    match Py.float a with
    | None => (inl ValueError, p)
    | Some x =>
      match r with
      | [] => (inl IndexError, p)
      | b :: r' =>
        match Py.float b with
        | None => (inl ValueError, p)
        | Some y =>
          match r' with
          | [] => (inl IndexError, p)
          | c :: _ =>
            match Py.float c with
            | None => (inl ValueError, p)
            | Some z =>
                (inr tt, mkDoc (Vertices p ++ [mkVertex x y z]) (Indices p)
                               (UVs p) (PrimitiveType p))
            end
          end
        end
      end
    end
  end.
Proof.
  unfold parse_vert, getitem, float.
  destruct pram as [|a r]; [reflexivity|].
  change (Py.index (a :: r) 0) with (Some a). cbn [or_raise]. rewrite bind_ret_l.
  destruct (Py.float a) as [x|]; [|reflexivity].
  cbn [or_raise]. rewrite bind_ret_l.
  destruct r as [|b r']; [reflexivity|].
  change (Py.index (a :: b :: r') 1) with (Some b). cbn [or_raise]. rewrite bind_ret_l.
  destruct (Py.float b) as [y|]; [|reflexivity].
  cbn [or_raise]. rewrite bind_ret_l.
  destruct r' as [|c r'']; [reflexivity|].
  change (Py.index (a :: b :: c :: r'') 2) with (Some c). cbn [or_raise]. rewrite bind_ret_l.
  destruct (Py.float c) as [z|]; reflexivity.
Qed.

(** [parse_uv], by the shape of its argument. *)
Lemma parse_uv_cases pram p :
  parse_uv pram p =
  match pram with
  | [] => (inl IndexError, p)
  | a :: r =>
    match Py.float a with
    | None => (inl ValueError, p)
    | Some u =>
      match r with
      | [] => (inl IndexError, p)
      | b :: _ =>
        match Py.float b with
        | None => (inl ValueError, p)
        | Some v =>
            (inr tt, mkDoc (Vertices p) (Indices p) (UVs p ++ [mkUV u v])
                           (PrimitiveType p))
        end
      end
    end
  end.
Proof.
  unfold parse_uv, getitem, float.
  destruct pram as [|a r]; [reflexivity|].
  change (Py.index (a :: r) 0) with (Some a). cbn [or_raise]. rewrite bind_ret_l.
  destruct (Py.float a) as [u|]; [|reflexivity].
  cbn [or_raise]. rewrite bind_ret_l.
  destruct r as [|b r']; [reflexivity|].
  change (Py.index (a :: b :: r') 1) with (Some b). cbn [or_raise]. rewrite bind_ret_l.
  destruct (Py.float b) as [v|]; reflexivity.
Qed.

(** One face reference. *)
Lemma index_step_cases part p :
  index_step part p =
  match vertex_ref part with
  | None => (inl ValueError, p)
  | Some k => (inr tt, mkDoc (Vertices p) (Indices p ++ [(k - 1)%Z]) (UVs p)
                             (PrimitiveType p))
  end.
Proof.
  unfold index_step, getitem, int, vertex_ref.
  rewrite split_hd. cbn [or_raise]. rewrite bind_ret_l.
  destruct (Py.int _); reflexivity.
Qed.

(** The loop of [parse_indices] visits the references one by one: the
    index it reads each of them back by is the position it is at. *)
Lemma parse_indices_from pre suf p :
  for_each (Py.enumerate_from (Z.of_nat (List.length pre)) suf)
    (fun i_ =>
       part <- getitem (pre ++ suf) (fst i_) ;;
       let div := Py.split "/" part in
       d0 <- getitem div 0 ;;
       n <- int d0 ;;
       let mesh_index := (n - 1)%Z in
       append_Indices mesh_index) p
  = for_each suf index_step p.
Proof.
  revert pre p. induction suf as [|a suf IH]; intros pre p.
  - reflexivity.
  - cbn [Py.enumerate_from for_each fst].
    unfold getitem at 1. rewrite index_app_here. cbn [or_raise].
    rewrite bind_ret_l. fold (index_step a).
    destruct (index_step a p) as [[e|[]] p1] eqn:E.
    { now rewrite !(bind_raises _ _ _ _ _ E). }
    rewrite !(bind_returns _ _ _ _ _ E).
    replace (pre ++ a :: suf) with ((pre ++ [a]) ++ suf)
      by now rewrite <- app_assoc.
    replace (Z.of_nat (List.length pre) + 1)%Z
      with (Z.of_nat (List.length (pre ++ [a])))
      by (rewrite length_app; simpl; lia).
    apply IH.
Qed.

Lemma parse_indices_for_each pram p :
  parse_indices pram p = for_each pram index_step p.
Proof. exact (parse_indices_from [] pram p). Qed.

(** All references convert: one index each is appended, in order. *)
Lemma for_each_index_step_ok pram ks p :
  Forall2 (fun tok k => vertex_ref tok = Some k) pram ks ->
  for_each pram index_step p =
  (inr tt, mkDoc (Vertices p) (Indices p ++ map (fun k => k - 1)%Z ks)
                 (UVs p) (PrimitiveType p)).
Proof.
  intros H. revert p. induction H as [|tok k pram ks Hk _ IH]; intros p.
  - simpl. rewrite app_nil_r. now destruct p.
  - cbn [for_each map]. unfold bind. rewrite index_step_cases, Hk.
    rewrite IH. cbn [Vertices Indices UVs PrimitiveType].
    now rewrite <- app_assoc.
Qed.

(** A reference that does not convert stops the loop. *)
Lemma for_each_index_step_bad pram p :
  (exists t, In t pram /\ vertex_ref t = None) ->
  fst (for_each pram index_step p) = inl ValueError.
Proof.
  intros (t & Hin & Ht). revert p.
  induction pram as [|a pram IH]; intros p; [contradiction|].
  cbn [for_each]. unfold bind. rewrite index_step_cases.
  destruct (vertex_ref a) as [k|] eqn:Ha; [|reflexivity].
  destruct Hin as [->|Hin]; [congruence|]. now apply IH.
Qed.

(** ** Lines and files *)

Lemma for_each_index_step_exn pram p e :
  fst (for_each pram index_step p) = inl e -> e = ValueError.
Proof.
  revert p. induction pram as [|a pram IH]; intros p; cbn [for_each].
  - discriminate.
  - unfold bind. rewrite index_step_cases.
    destruct (vertex_ref a); [apply IH|].
    simpl. congruence.
Qed.

Lemma for_each_index_step_keeps pram p :
  let p' := snd (for_each pram index_step p) in
  Vertices p' = Vertices p /\ UVs p' = UVs p.
Proof.
  revert p. induction pram as [|a pram IH]; intros p; cbn [for_each].
  - now split.
  - unfold bind. rewrite index_step_cases.
    destruct (vertex_ref a); [|now split].
    destruct (IH (mkDoc (Vertices p) (Indices p ++ [(z - 1)%Z]) (UVs p)
                        (PrimitiveType p))) as [HV HU].
    now split.
Qed.

(** A line raises nothing but the two exceptions of parsing. *)
Lemma parse_line_exn line p e :
  fst (parse_line line p) = inl e -> parse_failure e.
Proof.
  rewrite parse_line_unfold. unfold parse_failure.
  destruct (negb (recognized line)); [discriminate|].
  destruct (String.eqb (marker line) "v").
  { rewrite parse_vert_cases.
    destruct (params line) as [|a [|b [|c r]]];
      repeat match goal with
             | |- context [match Py.float ?t with _ => _ end] =>
                 destruct (Py.float t)
             end; simpl; intros H; inversion H; auto. }
  destruct (String.eqb (marker line) "vt").
  { rewrite parse_uv_cases.
    destruct (params line) as [|a [|b r]];
      repeat match goal with
             | |- context [match Py.float ?t with _ => _ end] =>
                 destruct (Py.float t)
             end; simpl; intros H; inversion H; auto. }
  destruct (String.eqb (marker line) "f").
  { rewrite parse_indices_for_each. intros H.
    left. eapply for_each_index_step_exn; eauto. }
  discriminate.
Qed.

(** Whether a line raises, and what, does not depend on the document. *)
Lemma parse_line_result line p :
  fst (parse_line line p) = fst (parse_line line new_parsed).
Proof. now rewrite parse_line_frame. Qed.

Lemma parse_lines_cons line lines p :
  parse_lines (line :: lines) p =
  match parse_line line p with
  | (inr _, p1) => parse_lines lines p1
  | (inl e, p1) => (inl e, p1)
  end.
Proof. reflexivity. Qed.

Lemma parse_lines_app pre post p :
  parse_lines (pre ++ post) p =
  match parse_lines pre p with
  | (inr _, mid) => parse_lines post mid
  | (inl e, mid) => (inl e, mid)
  end.
Proof. unfold parse_lines. now rewrite for_each_app. Qed.

Lemma parse_lines_exn lines p e :
  fst (parse_lines lines p) = inl e -> parse_failure e.
Proof.
  revert p. induction lines as [|l lines IH]; intros p.
  - discriminate.
  - rewrite parse_lines_cons.
    destruct (parse_line l p) as [[e'|[]] p1] eqn:E.
    + simpl. intros [= <-]. apply (parse_line_exn l p). now rewrite E.
    + apply IH.
Qed.

(** The first line that raises decides the exception of the loop. *)
Lemma parse_lines_first_failure pre line post p mid e :
  parse_lines pre p = (inr tt, mid) ->
  fst (parse_line line new_parsed) = inl e ->
  fst (parse_lines (pre ++ line :: post) p) = inl e.
Proof.
  intros Hpre Hline. rewrite parse_lines_app, Hpre, parse_lines_cons.
  rewrite <- (parse_line_result line mid) in Hline.
  destruct (parse_line line mid) as [[e'|[]] p1]; simpl in Hline.
  - simpl. congruence.
  - discriminate.
Qed.

(** A line that raises makes the loop raise, at that line or before. *)
Lemma parse_lines_raise_if lines line p e :
  In line lines ->
  fst (parse_line line new_parsed) = inl e ->
  exists e', fst (parse_lines lines p) = inl e'.
Proof.
  intros Hin Hline. revert p.
  induction lines as [|l lines IH]; intros p; [contradiction|].
  rewrite parse_lines_cons.
  destruct (parse_line l p) as [[e'|[]] p1] eqn:E.
  - now exists e'.
  - destruct Hin as [->|Hin].
    + rewrite <- (parse_line_result line p), E in Hline. discriminate.
    + now apply IH.
Qed.

Lemma parse_text_inl text e :
  parse_text text = inl e <->
  fst (parse_lines (Py.iter_lines text) new_parsed) = inl e.
Proof.
  unfold parse_text.
  destruct (parse_lines (Py.iter_lines text) new_parsed) as [[e'|[]] p1];
    simpl; split; congruence.
Qed.

Lemma parse_text_inr text doc :
  parse_text text = inr doc <->
  parse_lines (Py.iter_lines text) new_parsed = (inr tt, doc).
Proof.
  unfold parse_text.
  destruct (parse_lines (Py.iter_lines text) new_parsed) as [[e'|[]] p1];
    simpl; split; congruence.
Qed.

(** ** The main program, case by case *)

Lemma print_cases env s tr :
  print env s tr =
  match print_fails env s with
  | Some f => (inl (exn_of_print_failure f), tr)
  | None => (inr tt, tr ++ [EPrint s])
  end.
Proof. unfold print. now destruct (print_fails env s). Qed.

Lemma json_dumps_Some parsed j :
  json_dumps parsed = Some j -> j = json_value parsed.
Proof.
  unfold json_dumps.
  destruct (forallb Py.int_str_ok (Indices parsed)
            && Py.int_str_ok (PrimitiveType parsed)); congruence.
Qed.

Lemma parse_mesh_cases env path tr :
  parse_mesh env path tr =
  match read_text env path with
  | None => (inl OSError, tr ++ [EOpen path "r"])
  | Some text =>
      match parse_text text with
      | inl e => (inl e, tr ++ [EOpen path "r"])
      | inr parsed =>
          match print_fails env (vertices_message parsed) with
          | Some f => (inl (exn_of_print_failure f), tr ++ [EOpen path "r"])
          | None =>
          match print_fails env (indices_message parsed) with
          | Some f =>
              (inl (exn_of_print_failure f),
               tr ++ [EOpen path "r"; EPrint (vertices_message parsed)])
          | None =>
          match print_fails env (uvs_message parsed) with
          | Some f =>
              (inl (exn_of_print_failure f),
               tr ++ [EOpen path "r"; EPrint (vertices_message parsed);
                      EPrint (indices_message parsed)])
          | None => (inr parsed, tr ++ parsed_trace path parsed)
          end end end
      end
  end.
Proof.
  unfold parse_mesh, open_read, parse_text, with_local, emit, modify, or_raise.
  unfold bind at 1 2. cbv beta iota.
  destruct (read_text env path) as [text|]; [|reflexivity].
  cbv beta iota delta [ret bind].
  destruct (parse_lines (Py.iter_lines text) new_parsed) as [[e|[]] parsed];
    [reflexivity|].
  fold (vertices_message parsed) (indices_message parsed) (uvs_message parsed).
  rewrite print_cases.
  destruct (print_fails env (vertices_message parsed)); [reflexivity|].
  rewrite print_cases.
  destruct (print_fails env (indices_message parsed));
    [now rewrite <- app_assoc|].
  rewrite print_cases.
  destruct (print_fails env (uvs_message parsed));
    [now rewrite <- !app_assoc|].
  unfold parsed_trace.
  fold (vertices_message parsed) (indices_message parsed) (uvs_message parsed).
  now rewrite <- !app_assoc.
Qed.

Lemma run_cases env prog inp out :
  run env [prog; inp; out] =
  match final_suffix inp with
  | None => (inl IndexError, [])
  | Some suffix =>
      if negb (String.eqb suffix ".obj")
      then (inl (NameError "This script only accepts .obj"), [])
      else
        match read_text env inp with
        | None => (inl OSError, [EOpen inp "r"])
        | Some text =>
            match parse_text text with
            | inl e => (inl e, [EOpen inp "r"])
            | inr parsed =>
                match print_fails env (vertices_message parsed) with
                | Some f => (inl (exn_of_print_failure f), [EOpen inp "r"])
                | None =>
                match print_fails env (indices_message parsed) with
                | Some f =>
                    (inl (exn_of_print_failure f),
                     [EOpen inp "r"; EPrint (vertices_message parsed)])
                | None =>
                match print_fails env (uvs_message parsed) with
                | Some f =>
                    (inl (exn_of_print_failure f),
                     [EOpen inp "r"; EPrint (vertices_message parsed);
                      EPrint (indices_message parsed)])
                | None =>
                match json_dumps parsed with
                | None => (inl ValueError, parsed_trace inp parsed)
                | Some json_p =>
                    if can_write env out
                    then
                      if write_fails env out
                      then (inl OSError, failed_write_trace inp out parsed)
                      else
                        match print_fails env (export_message out) with
                        | Some f =>
                            (inl (exn_of_print_failure f),
                             parsed_trace inp parsed
                             ++ [EOpen out "w"; EWrite out json_p])
                        | None =>
                            (inr tt,
                             parsed_trace inp parsed
                             ++ [EOpen out "w"; EWrite out json_p;
                                 EPrint (export_message out)])
                        end
                    else (inl OSError, unwritable_trace inp out parsed)
                end end end end
            end
        end
  end.
Proof.
  unfold run, main. cbn [List.length Nat.eqb negb].
  unfold getitem at 1 2.
  change (Py.index [prog; inp; out] 1) with (Some inp).
  change (Py.index [prog; inp; out] 2) with (Some out).
  cbn [or_raise]. rewrite !bind_ret_l.
  unfold getitem, final_suffix.
  destruct (Py.index (Py.suffixes inp) (-1)) as [suffix|]; [|reflexivity].
  cbn [or_raise]. rewrite bind_ret_l.
  destruct (negb (String.eqb suffix ".obj")); [reflexivity|].
  unfold bind at 1. rewrite parse_mesh_cases.
  destruct (read_text env inp) as [text|]; [|reflexivity].
  destruct (parse_text text) as [e|parsed]; [reflexivity|].
  destruct (print_fails env (vertices_message parsed)); [reflexivity|].
  destruct (print_fails env (indices_message parsed)); [reflexivity|].
  destruct (print_fails env (uvs_message parsed)); [reflexivity|].
  cbn [app]. fold (export_message out).
  destruct (json_dumps parsed) as [json_p|]; [|reflexivity].
  cbn [or_raise]. rewrite bind_ret_l.
  unfold write_file, emit, modify, raise. unfold bind. cbv beta iota.
  destruct (can_write env out); [|reflexivity].
  destruct (write_fails env out).
  { unfold failed_write_trace. now rewrite <- app_assoc. }
  rewrite print_cases.
  destruct (print_fails env (export_message out)); [reflexivity|].
  now rewrite <- app_assoc.
Qed.

Lemma run_wrong_argc env argv :
  List.length argv <> 3%nat ->
  run env argv =
  (inl (Exception "This script need two parameters (import and export files)"), []).
Proof.
  intros H. unfold run, main.
  destruct (Nat.eqb_spec (List.length argv) 3); [contradiction|reflexivity].
Qed.

(* ================================================================== *)
(** * The claims of the specification *)
(* ================================================================== *)

(** ** Face lines *)

(** C1. A face line whose [n] references convert appends exactly [n]
    entries to [Indices], in the order of the references: each entry is the
    integer before the first slash of its reference, minus one. The UV and
    normal parts of a reference are not looked at, and a face of more than
    three references is appended as it is, without subdivision. The file
    [f 1/1/1 2/2/2 3/3/3] gives the indices [0; 1; 2]. *)
Theorem face_line_appends_indices :
  forall line pram ks p,
    tokens line = "f" :: pram ->
    Forall2 (fun tok k => vertex_ref tok = Some k) pram ks ->
    parse_line line p =
      (inr tt, mkDoc (Vertices p) (Indices p ++ map (fun k => k - 1)%Z ks)
                     (UVs p) (PrimitiveType p))
    /\ List.length (map (fun k => k - 1)%Z ks) = List.length pram
    /\ parse_text "f 1/1/1 2/2/2 3/3/3" = inr (mkDoc [] [0; 1; 2]%Z [] 4)
    /\ parse_text "f 1/1/1 2/2/2 3/3/3 4/4/4" = inr (mkDoc [] [0; 1; 2; 3]%Z [] 4)
    /\ parse_text "f 1/x/y 2//9 3" = inr (mkDoc [] [0; 1; 2]%Z [] 4).
Proof.
  intros line pram ks p Htok Hks.
  assert (Hm : marker line = "f") by (unfold marker; now rewrite Htok).
  assert (Hp : params line = pram) by (unfold params; now rewrite Htok).
  repeat split.
  - rewrite (parse_line_f _ _ Hm), Hp, parse_indices_for_each.
    now apply for_each_index_step_ok.
  - rewrite length_map. symmetry. eapply Forall2_length; eauto.
Qed.

Lemma face_line_appends_indices_witness :
  tokens "f 1/1/1 2/2/2 3/3/3" = "f" :: ["1/1/1"; "2/2/2"; "3/3/3"]
  /\ Forall2 (fun tok k => vertex_ref tok = Some k)
             ["1/1/1"; "2/2/2"; "3/3/3"] [1; 2; 3]%Z
  /\ parse_line "f 1/1/1 2/2/2 3/3/3" new_parsed
     = (inr tt, mkDoc [] [0; 1; 2]%Z [] 4).
Proof.
  assert (Ht : tokens "f 1/1/1 2/2/2 3/3/3" = "f" :: ["1/1/1"; "2/2/2"; "3/3/3"])
    by reflexivity.
  assert (Hk : Forall2 (fun tok k => vertex_ref tok = Some k)
                       ["1/1/1"; "2/2/2"; "3/3/3"] [1; 2; 3]%Z)
    by (repeat constructor).
  split; [exact Ht|]. split; [exact Hk|].
  exact (proj1 (face_line_appends_indices _ _ _ new_parsed Ht Hk)).
Defined.

(** ** Vertex lines *)

(** C5. A vertex line takes its first three parameters, in order, as X, Y
    and Z, whatever follows them. The file whose only line is
    [v 1.0 2.0 3.0] is exported with one vertex, X = 1.0, Y = 2.0 and
    Z = 3.0, and with empty [Indices] and [UVs]. *)
Theorem vertex_line_is_positional :
  forall line a b c rest x y z p,
    tokens line = "v" :: a :: b :: c :: rest ->
    Py.float a = Some x -> Py.float b = Some y -> Py.float c = Some z ->
    parse_line line p =
      (inr tt, mkDoc (Vertices p ++ [mkVertex x y z]) (Indices p) (UVs p)
                     (PrimitiveType p))
    /\ parse_text "v 1.0 2.0 3.0" =
       inr (mkDoc [mkVertex (Py.float_of_Z 1) (Py.float_of_Z 2) (Py.float_of_Z 3)] [] [] 4)
    /\ (exists tr,
          run (one_file "mesh.obj" "v 1.0 2.0 3.0")
              ["mesh_converter.py"; "mesh.obj"; "mesh.json"] = (inr tt, tr)
          /\ In (EWrite "mesh.json"
                   (JObject
                      [("Vertices",
                        JArray [JObject [("X", JFloat (Py.float_of_Z 1));
                                         ("Y", JFloat (Py.float_of_Z 2));
                                         ("Z", JFloat (Py.float_of_Z 3))]]);
                       ("Indices", JArray []);
                       ("UVs", JArray []);
                       ("PrimitiveType", JInt 4)])) tr).
Proof.
  intros line a b c rest x y z p Htok Ha Hb Hc.
  assert (Hm : marker line = "v") by (unfold marker; now rewrite Htok).
  assert (Hp : params line = a :: b :: c :: rest)
    by (unfold params; now rewrite Htok).
  split; [|split].
  - rewrite (parse_line_v _ _ Hm), Hp, parse_vert_cases.
    now rewrite Ha, Hb, Hc.
  - vm_compute. reflexivity.
  - eexists. split.
    + vm_compute. reflexivity.
    + do 5 right. left. reflexivity.
Qed.

Lemma vertex_line_is_positional_witness :
  tokens "v 1.0 2.0 3.0 0.5 0.5 0.5" = "v" :: "1.0" :: "2.0" :: "3.0" :: ["0.5"; "0.5"; "0.5"]
  /\ Py.float "1.0" = Some (Py.float_of_Z 1)
  /\ Py.float "2.0" = Some (Py.float_of_Z 2)
  /\ Py.float "3.0" = Some (Py.float_of_Z 3)
  /\ parse_line "v 1.0 2.0 3.0 0.5 0.5 0.5" new_parsed =
     (inr tt, mkDoc [mkVertex (Py.float_of_Z 1) (Py.float_of_Z 2) (Py.float_of_Z 3)] [] [] 4).
Proof.
  assert (Ht : tokens "v 1.0 2.0 3.0 0.5 0.5 0.5"
               = "v" :: "1.0" :: "2.0" :: "3.0" :: ["0.5"; "0.5"; "0.5"])
    by reflexivity.
  assert (H1 : Py.float "1.0" = Some (Py.float_of_Z 1)) by (vm_compute; reflexivity).
  assert (H2 : Py.float "2.0" = Some (Py.float_of_Z 2)) by (vm_compute; reflexivity).
  assert (H3 : Py.float "3.0" = Some (Py.float_of_Z 3)) by (vm_compute; reflexivity).
  repeat (split; [assumption|]).
  exact (proj1 (vertex_line_is_positional _ _ _ _ _ _ _ _ new_parsed Ht H1 H2 H3)).
Defined.

(** ** Lines that are skipped *)

(** C6. A line whose first token is none of [v], [vt] and [f] is skipped:
    it raises nothing and leaves the document as it was, so that a file
    parses as it does without the line. Blank lines, comments, object
    directives and normals are such lines. *)
Theorem unrecognized_line_is_skipped :
  forall line p,
    recognized line = false ->
    parse_line line p = (inr tt, p)
    /\ (forall pre post q,
          parse_lines (pre ++ line :: post) q = parse_lines (pre ++ post) q)
    /\ Forall (fun l => recognized l = false)
         [""; String Py.LF ""; "# comment"; "o ObjectName"; "vn 0 0 1"].
Proof.
  intros line p H. split; [|split].
  - now apply parse_line_skip.
  - intros pre post q. rewrite !parse_lines_app.
    destruct (parse_lines pre q) as [[e|[]] mid]; [reflexivity|].
    rewrite parse_lines_cons. now rewrite (parse_line_skip _ _ H).
  - repeat constructor.
Qed.

Lemma unrecognized_line_is_skipped_witness :
  recognized "vn 0 0 1" = false
  /\ parse_line "vn 0 0 1" new_parsed = (inr tt, new_parsed).
Proof.
  assert (H : recognized "vn 0 0 1" = false) by reflexivity.
  split; [exact H|].
  exact (proj1 (unrecognized_line_is_skipped "vn 0 0 1" new_parsed H)).
Defined.

(** ** The command line *)

(** C8. With a number of arguments other than two (so a [sys.argv] of a
    length other than three), the run raises the usage error at once: its
    trace is empty, no file was opened, read or written. *)
Theorem wrong_argument_count_is_usage_error :
  forall env argv,
    List.length argv <> 3%nat ->
    run env argv =
      (inl (Exception "This script need two parameters (import and export files)"),
       [])
    /\ existsb touches_files (snd (run env argv)) = false.
Proof.
  intros env argv H. rewrite (run_wrong_argc env argv H). now split.
Qed.

Lemma wrong_argument_count_is_usage_error_witness :
  List.length ["mesh_converter.py"; "mesh.obj"] <> 3%nat
  /\ List.length ["mesh_converter.py"; "mesh.obj"; "mesh.json"; "extra"] <> 3%nat
  /\ run (one_file "mesh.obj" "v 1.0 2.0 3.0") ["mesh_converter.py"; "mesh.obj"]
     = (inl (Exception "This script need two parameters (import and export files)"),
        [])
  /\ run (one_file "mesh.obj" "v 1.0 2.0 3.0")
         ["mesh_converter.py"; "mesh.obj"; "mesh.json"; "extra"]
     = (inl (Exception "This script need two parameters (import and export files)"),
        []).
Proof.
  assert (H1 : List.length ["mesh_converter.py"; "mesh.obj"] <> 3%nat)
    by (simpl; lia).
  assert (H3 : List.length ["mesh_converter.py"; "mesh.obj"; "mesh.json"; "extra"]
               <> 3%nat) by (simpl; lia).
  split; [exact H1|]. split; [exact H3|]. split.
  - exact (proj1 (wrong_argument_count_is_usage_error
                    (one_file "mesh.obj" "v 1.0 2.0 3.0") _ H1)).
  - exact (proj1 (wrong_argument_count_is_usage_error
                    (one_file "mesh.obj" "v 1.0 2.0 3.0") _ H3)).
Defined.

(** C7. When the final suffix of the input path is not exactly [.obj], the
    run raises before the input is opened: the trace is empty. The
    exception is the script's [NameError] when the path has a final suffix,
    and the [IndexError] of [suffixes[-1]] when it has no suffix at all. *)
Theorem wrong_suffix_aborts_before_reading :
  forall env prog inp out,
    final_suffix inp <> Some ".obj" ->
    run env [prog; inp; out] =
      (inl match final_suffix inp with
           | Some _ => NameError "This script only accepts .obj"
           | None => IndexError
           end, [])
    /\ existsb touches_files (snd (run env [prog; inp; out])) = false.
Proof.
  intros env prog inp out H.
  assert (E : run env [prog; inp; out] =
              (inl match final_suffix inp with
                   | Some _ => NameError "This script only accepts .obj"
                   | None => IndexError
                   end, [])).
  { rewrite run_cases.
    destruct (final_suffix inp) as [suffix|]; [|reflexivity].
    destruct (String.eqb_spec suffix ".obj") as [->|Hne]; [congruence|].
    reflexivity. }
  rewrite E. now split.
Qed.

Lemma wrong_suffix_aborts_before_reading_witness :
  final_suffix "mesh.OBJ" <> Some ".obj"
  /\ run (one_file "mesh.OBJ" "v 1.0 2.0 3.0")
         ["mesh_converter.py"; "mesh.OBJ"; "mesh.json"]
     = (inl (NameError "This script only accepts .obj"), []).
Proof.
  assert (H : final_suffix "mesh.OBJ" <> Some ".obj") by (vm_compute; discriminate).
  split; [exact H|].
  exact (proj1 (wrong_suffix_aborts_before_reading
                  (one_file "mesh.OBJ" "v 1.0 2.0 3.0")
                  "mesh_converter.py" "mesh.OBJ" "mesh.json" H)).
Defined.

(** ** What is written *)

Lemma length_3_inv {A} (l : list A) :
  List.length l = 3%nat -> exists a b c, l = [a; b; c].
Proof.
  destruct l as [|a [|b [|c [|d l]]]]; try discriminate.
  intros _. now exists a, b, c.
Qed.

(** A run that returns has gone through every step. *)
Lemma run_returns_inv env argv tr :
  run env argv = (inr tt, tr) ->
  exists prog inp out text parsed,
    argv = [prog; inp; out]
    /\ final_suffix inp = Some ".obj"
    /\ read_text env inp = Some text
    /\ parse_text text = inr parsed
    /\ can_write env out = true
    /\ tr = success_trace inp out parsed.
Proof.
  intros H.
  destruct (Nat.eq_dec (List.length argv) 3) as [Hlen|Hlen].
  2:{ rewrite (run_wrong_argc env argv Hlen) in H. discriminate. }
  destruct (length_3_inv argv Hlen) as (prog & inp & out & ->).
  rewrite run_cases in H.
  destruct (final_suffix inp) as [suffix|] eqn:Hf; [|discriminate].
  destruct (String.eqb suffix ".obj") eqn:Hs; [|discriminate].
  apply String.eqb_eq in Hs. subst suffix. cbn [negb] in H.
  destruct (read_text env inp) as [text|] eqn:Hr; [|discriminate].
  destruct (parse_text text) as [e|parsed] eqn:Hp; [discriminate|].
  destruct (print_fails env (vertices_message parsed)); [discriminate|].
  destruct (print_fails env (indices_message parsed)); [discriminate|].
  destruct (print_fails env (uvs_message parsed)); [discriminate|].
  destruct (json_dumps parsed) as [json_p|] eqn:Hj; [|discriminate].
  apply json_dumps_Some in Hj. subst json_p.
  destruct (can_write env out) eqn:Hw; [|discriminate].
  destruct (write_fails env out); [discriminate|].
  destruct (print_fails env (export_message out)); [discriminate|].
  inversion H. now exists prog, inp, out, text, parsed.
Qed.

(** What a run writes is the export of a document that was parsed to the
    end of the input, at the path of the third argument. *)
Lemma run_write_inv env prog inp out path data :
  In (EWrite path data) (snd (run env [prog; inp; out])) ->
  exists text parsed,
    read_text env inp = Some text
    /\ parse_text text = inr parsed
    /\ path = out /\ data = json_value parsed.
Proof.
  rewrite run_cases.
  destruct (final_suffix inp) as [suffix|]; [|contradiction].
  destruct (negb (String.eqb suffix ".obj")); [contradiction|].
  destruct (read_text env inp) as [text|].
  2:{ simpl. intros [H|[]]. discriminate. }
  destruct (parse_text text) as [e|parsed] eqn:Hp.
  { simpl. intros [H|[]]. discriminate. }
  destruct (print_fails env (vertices_message parsed)).
  { simpl. intros [H|[]]. discriminate. }
  destruct (print_fails env (indices_message parsed)).
  { simpl. intros [H|[H|[]]]; discriminate. }
  destruct (print_fails env (uvs_message parsed)).
  { simpl. intros [H|[H|[H|[]]]]; discriminate. }
  destruct (json_dumps parsed) as [json_p|] eqn:Hj.
  2:{ simpl. intros [H|[H|[H|[H|[]]]]]; discriminate. }
  apply json_dumps_Some in Hj. subst json_p.
  destruct (can_write env out).
  2:{ simpl. intros [H|[H|[H|[H|[H|[]]]]]]; discriminate. }
  destruct (write_fails env out).
  { simpl. intros [H|[H|[H|[H|[H|[H|[]]]]]]]; discriminate. }
  destruct (print_fails env (export_message out)).
  - simpl. intros [H|[H|[H|[H|[H|[H|[]]]]]]]; try discriminate.
    inversion H. now exists text, parsed.
  - simpl. intros [H|[H|[H|[H|[H|[H|[H|[]]]]]]]]; try discriminate.
    inversion H. now exists text, parsed.
Qed.

Lemma parse_text_PrimitiveType text parsed :
  parse_text text = inr parsed -> PrimitiveType parsed = 4%Z.
Proof.
  intros H. apply parse_text_inr in H.
  pose proof (framed_PrimitiveType _ new_parsed
                (framed_parse_lines (Py.iter_lines text))) as Hpt.
  now rewrite H in Hpt.
Qed.

(** C4. In every run that succeeds, the document that is written has the
    integer 4 as its [PrimitiveType], whatever the input holds. *)
Theorem primitive_type_is_4 :
  forall env argv tr,
    run env argv = (inr tt, tr) ->
    exists inp out parsed,
      tr = success_trace inp out parsed
      /\ In (EWrite out (json_value parsed)) tr
      /\ PrimitiveType parsed = 4%Z
      /\ json_member "PrimitiveType" (json_value parsed) = Some (JInt 4)
      /\ forall path data,
           In (EWrite path data) tr ->
           json_member "PrimitiveType" data = Some (JInt 4).
Proof.
  intros env argv tr H.
  destruct (run_returns_inv _ _ _ H)
    as (prog & inp & out & text & parsed & -> & _ & _ & Hp & _ & ->).
  pose proof (parse_text_PrimitiveType _ _ Hp) as H4.
  exists inp, out, parsed. split; [reflexivity|]. split.
  { do 5 right. now left. }
  split; [exact H4|]. split.
  { cbn. now rewrite H4. }
  intros path data Hin.
  replace (success_trace inp out parsed)
    with (snd (run env [prog; inp; out])) in Hin by now rewrite H.
  destruct (run_write_inv _ _ _ _ _ _ Hin) as (text' & parsed' & _ & Hp' & _ & ->).
  cbn. now rewrite (parse_text_PrimitiveType _ _ Hp').
Qed.

Lemma primitive_type_is_4_witness :
  exists tr,
    run (one_file "quad.obj" "f 1 2 3 4") ["mesh_converter.py"; "quad.obj"; "quad.json"]
      = (inr tt, tr)
    /\ forall path data,
         In (EWrite path data) tr ->
         json_member "PrimitiveType" data = Some (JInt 4).
Proof.
  eexists. split; [vm_compute; reflexivity|].
  destruct (primitive_type_is_4
              (one_file "quad.obj" "f 1 2 3 4")
              ["mesh_converter.py"; "quad.obj"; "quad.json"] _ eq_refl)
    as (inp & out & parsed & _ & _ & _ & _ & H).
  exact H.
Defined.

(** ** Lines that raise *)

Lemma parse_vert_bad pram p :
  (exists t, In t (firstn 3 pram) /\ Py.float t = None) ->
  parse_vert pram p = (inl ValueError, p).
Proof.
  intros (t & Hin & Ht). rewrite parse_vert_cases.
  destruct pram as [|a [|b [|c r]]]; cbn [firstn In] in Hin;
    repeat (destruct Hin as [<-|Hin]); try contradiction;
    repeat match goal with
           | |- context [match Py.float ?s with _ => _ end] =>
               destruct (Py.float s) eqn:?
           end; try reflexivity; congruence.
Qed.

Lemma parse_uv_bad pram p :
  (exists t, In t (firstn 2 pram) /\ Py.float t = None) ->
  parse_uv pram p = (inl ValueError, p).
Proof.
  intros (t & Hin & Ht). rewrite parse_uv_cases.
  destruct pram as [|a [|b r]]; cbn [firstn In] in Hin;
    repeat (destruct Hin as [<-|Hin]); try contradiction;
    repeat match goal with
           | |- context [match Py.float ?s with _ => _ end] =>
               destruct (Py.float s) eqn:?
           end; try reflexivity; congruence.
Qed.

Lemma parse_vert_short pram p :
  (List.length pram < 3)%nat ->
  Forall (fun t => Py.float t <> None) pram ->
  parse_vert pram p = (inl IndexError, p).
Proof.
  intros Hlen Hall. rewrite parse_vert_cases.
  destruct pram as [|a [|b [|c r]]]; cbn [List.length] in Hlen; try lia;
    repeat match goal with
           | H : Forall _ (_ :: _) |- _ => inversion H; subst; clear H
           end;
    repeat match goal with
           | |- context [match Py.float ?s with _ => _ end] =>
               destruct (Py.float s) eqn:?
           end; try reflexivity; congruence.
Qed.

Lemma parse_uv_short pram p :
  (List.length pram < 2)%nat ->
  Forall (fun t => Py.float t <> None) pram ->
  parse_uv pram p = (inl IndexError, p).
Proof.
  intros Hlen Hall. rewrite parse_uv_cases.
  destruct pram as [|a [|b r]]; cbn [List.length] in Hlen; try lia;
    repeat match goal with
           | H : Forall _ (_ :: _) |- _ => inversion H; subst; clear H
           end;
    repeat match goal with
           | |- context [match Py.float ?s with _ => _ end] =>
               destruct (Py.float s) eqn:?
           end; try reflexivity; congruence.
Qed.

Lemma firstn_short {A} n (l : list A) : (List.length l < n)%nat -> firstn n l = l.
Proof. intros H. apply firstn_all2. lia. Qed.

(** A line with a field that does not convert raises [ValueError], from
    whatever document. *)
Lemma bad_number_raises line p :
  has_bad_number line -> fst (parse_line line p) = inl ValueError.
Proof.
  intros [[Hm Hbad]|[[Hm Hbad]|[Hm Hbad]]].
  - now rewrite (parse_line_v _ _ Hm), (parse_vert_bad _ _ Hbad).
  - now rewrite (parse_line_vt _ _ Hm), (parse_uv_bad _ _ Hbad).
  - rewrite (parse_line_f _ _ Hm), parse_indices_for_each.
    now apply for_each_index_step_bad.
Qed.

(** A run that reaches the parser and meets a line that raises. *)
Lemma run_parse_raises env prog inp out text e :
  final_suffix inp = Some ".obj" ->
  read_text env inp = Some text ->
  parse_text text = inl e ->
  run env [prog; inp; out] = (inl e, [EOpen inp "r"]).
Proof.
  intros Hs Hr Hp. rewrite run_cases, Hs, Hr, Hp. reflexivity.
Qed.

(** ** A numeric field that does not convert *)

(** C2. When a recognized line of the input has a numeric field that does
    not convert, the run raises while it parses and writes nothing: its
    trace holds the opening of the input and no other event. The
    exception is the [ValueError] of the conversion when the lines before
    that one were parsed without a raise. *)
Theorem bad_number_aborts_without_output :
  forall env prog inp out text line,
    final_suffix inp = Some ".obj" ->
    read_text env inp = Some text ->
    In line (Py.iter_lines text) ->
    has_bad_number line ->
    exists e,
      run env [prog; inp; out] = (inl e, [EOpen inp "r"])
      /\ parse_failure e
      /\ existsb is_write (snd (run env [prog; inp; out])) = false
      /\ forall pre post,
           Py.iter_lines text = pre ++ line :: post ->
           fst (parse_lines pre new_parsed) = inr tt ->
           e = ValueError.
Proof.
  intros env prog inp out text line Hs Hr Hin Hbad.
  pose proof (bad_number_raises line new_parsed Hbad) as Hline.
  destruct (parse_lines_raise_if _ _ new_parsed _ Hin Hline) as (e & He).
  pose proof (proj2 (parse_text_inl text e) He) as Hp.
  pose proof (run_parse_raises env prog inp out text e Hs Hr Hp) as Hrun.
  exists e. rewrite Hrun. repeat split.
  - eapply parse_lines_exn; eauto.
  - intros pre post Hsplit Hpre.
    destruct (parse_lines pre new_parsed) as [[e'|[]] mid] eqn:Epre;
      [discriminate|].
    pose proof (parse_lines_first_failure pre line post _ _ _ Epre Hline) as H.
    rewrite <- Hsplit in H. congruence.
Qed.

Lemma bad_number_aborts_without_output_witness :
  final_suffix "mesh.obj" = Some ".obj"
  /\ read_text (one_file "mesh.obj" "v a 2.0 3.0") "mesh.obj" = Some "v a 2.0 3.0"
  /\ In "v a 2.0 3.0" (Py.iter_lines "v a 2.0 3.0")
  /\ has_bad_number "v a 2.0 3.0"
  /\ exists e,
       run (one_file "mesh.obj" "v a 2.0 3.0")
           ["mesh_converter.py"; "mesh.obj"; "mesh.json"]
         = (inl e, [EOpen "mesh.obj" "r"])
       /\ parse_failure e.
Proof.
  assert (Hs : final_suffix "mesh.obj" = Some ".obj") by reflexivity.
  assert (Hr : read_text (one_file "mesh.obj" "v a 2.0 3.0") "mesh.obj"
               = Some "v a 2.0 3.0") by reflexivity.
  assert (Hin : In "v a 2.0 3.0" (Py.iter_lines "v a 2.0 3.0"))
    by (left; reflexivity).
  assert (Hbad : has_bad_number "v a 2.0 3.0").
  { left. split; [reflexivity|]. exists "a". split; [left; reflexivity|].
    reflexivity. }
  repeat (split; [assumption|]).
  destruct (bad_number_aborts_without_output
              (one_file "mesh.obj" "v a 2.0 3.0")
              "mesh_converter.py" "mesh.obj" "mesh.json" _ _ Hs Hr Hin Hbad)
    as (e & Hrun & Hpf & _).
  exists e. split; assumption.
Defined.

(** ** The order of the output *)

Lemma has_marker_unrecognized line m :
  recognized line = false -> In m VALID_VAR -> has_marker m line = false.
Proof.
  intros Hr Hm. unfold has_marker.
  destruct (String.eqb_spec (marker line) m) as [E|]; [|reflexivity].
  assert (recognized line = true); [|congruence].
  apply recognized_iff. rewrite E. cbn in Hm. intuition.
Qed.

(** What a line that does not raise adds to an empty document: nothing,
    one vertex, one UV, or indices, by its marker. *)
Lemma line_output_shape line :
  fst (parse_line line new_parsed) = inr tt ->
  (recognized line = false /\ line_output line = new_parsed)
  \/ (marker line = "v" /\ exists v, line_output line = mkDoc [v] [] [] 4)
  \/ (marker line = "vt" /\ exists t, line_output line = mkDoc [] [] [t] 4)
  \/ (marker line = "f"
      /\ line_output line = mkDoc [] (Indices (line_output line)) [] 4).
Proof.
  intros H. unfold line_output.
  destruct (recognized line) eqn:R.
  - apply recognized_iff in R. destruct R as [Hm|[Hm|Hm]].
    + right; left. split; [exact Hm|].
      rewrite (parse_line_v _ _ Hm), parse_vert_cases in *.
      destruct (params line) as [|a [|b [|c r]]];
        repeat match goal with
               | |- context [match Py.float ?s with _ => _ end] =>
                   destruct (Py.float s)
               end; try discriminate.
      eexists. reflexivity.
    + right; right; left. split; [exact Hm|].
      rewrite (parse_line_vt _ _ Hm), parse_uv_cases in *.
      destruct (params line) as [|a [|b r]];
        repeat match goal with
               | |- context [match Py.float ?s with _ => _ end] =>
                   destruct (Py.float s)
               end; try discriminate.
      eexists. reflexivity.
    + right; right; right. split; [exact Hm|].
      rewrite (parse_line_f _ _ Hm), parse_indices_for_each.
      pose proof (for_each_index_step_keeps (params line) new_parsed) as [HV HU].
      pose proof (framed_PrimitiveType _ new_parsed
                    (framed_for_each (params line) index_step
                       (fun a => ltac:(unfold index_step, getitem, int; framed_tac))))
        as HP.
      destruct (snd (for_each (params line) index_step new_parsed)); simpl in *.
      now subst.
  - left. split; [reflexivity|]. now rewrite parse_line_skip.
Qed.

(** The document after a loop that does not raise: the entries of the lines
    in the order of the lines, each kind in its own sequence, after what
    the document held before. *)
Lemma parse_lines_order lines :
  forall p p',
    parse_lines lines p = (inr tt, p') ->
    exists vs us,
      Forall2 (fun l v => line_output l = mkDoc [v] [] [] 4)
              (filter (has_marker "v") lines) vs
      /\ Forall2 (fun l t => line_output l = mkDoc [] [] [t] 4)
                 (filter (has_marker "vt") lines) us
      /\ p' = mkDoc (Vertices p ++ vs)
                    (Indices p ++ flat_map (fun l => Indices (line_output l))
                                           (filter (has_marker "f") lines))
                    (UVs p ++ us) (PrimitiveType p).
Proof.
  induction lines as [|l lines IH]; intros p p' H.
  - inversion H; subst. exists [], []. cbn.
    rewrite !app_nil_r. destruct p'. repeat split; constructor.
  - rewrite parse_lines_cons, parse_line_frame in H.
    destruct (fst (parse_line l new_parsed)) as [e|[]] eqn:Hl; [discriminate|].
    destruct (IH _ _ H) as (vs & us & Hvs & Hus & ->).
    destruct (line_output_shape l Hl)
      as [[Hr Ho]|[[Hm [v Ho]]|[[Hm [t Ho]]|[Hm Ho]]]].
    + exists vs, us. cbn [filter].
      rewrite !(has_marker_unrecognized l _ Hr) by (cbn; tauto).
      rewrite Ho, extend_new_r. now repeat split.
    + assert (Hv : has_marker "v" l = true) by (unfold has_marker; now rewrite Hm).
      assert (Ht : has_marker "vt" l = false) by (unfold has_marker; now rewrite Hm).
      assert (Hf : has_marker "f" l = false) by (unfold has_marker; now rewrite Hm).
      exists (v :: vs), us. cbn [filter]. rewrite Hv, Ht, Hf, Ho.
      unfold extend; cbn [Vertices Indices UVs PrimitiveType].
      repeat split; [now constructor|assumption|].
      now rewrite !app_nil_r, <- app_assoc.
    + assert (Hv : has_marker "v" l = false) by (unfold has_marker; now rewrite Hm).
      assert (Ht : has_marker "vt" l = true) by (unfold has_marker; now rewrite Hm).
      assert (Hf : has_marker "f" l = false) by (unfold has_marker; now rewrite Hm).
      exists vs, (t :: us). cbn [filter]. rewrite Hv, Ht, Hf, Ho.
      unfold extend; cbn [Vertices Indices UVs PrimitiveType].
      repeat split; [assumption|now constructor|].
      now rewrite !app_nil_r, <- app_assoc.
    + assert (Hv : has_marker "v" l = false) by (unfold has_marker; now rewrite Hm).
      assert (Ht : has_marker "vt" l = false) by (unfold has_marker; now rewrite Hm).
      assert (Hf : has_marker "f" l = true) by (unfold has_marker; now rewrite Hm).
      exists vs, us. cbn [filter]. rewrite Hv, Ht, Hf.
      rewrite Ho at 1 2 3 4.
      unfold extend; cbn [Vertices Indices UVs PrimitiveType flat_map].
      repeat split; [assumption|assumption|].
      now rewrite !app_nil_r, <- app_assoc.
Qed.

(** C3. Each sequence of the document lists its entries in the order of
    the lines they come from: [Vertices] has one entry for each [v] line,
    the i-th entry being what the i-th [v] line gives on its own, wherever
    the [vt] and [f] lines stand between them; so have [UVs] for the [vt]
    lines, and [Indices] is the concatenation of what the [f] lines give.
    Nothing is reordered, merged or dropped, and no index is checked
    against the vertices: [f 7] alone is parsed to the index 6. *)
Theorem output_order_is_file_order :
  forall text parsed,
    parse_text text = inr parsed ->
    let lines := Py.iter_lines text in
    Forall2 (fun l v => line_output l = mkDoc [v] [] [] 4)
            (filter (has_marker "v") lines) (Vertices parsed)
    /\ Forall2 (fun l t => line_output l = mkDoc [] [] [t] 4)
               (filter (has_marker "vt") lines) (UVs parsed)
    /\ Indices parsed = flat_map (fun l => Indices (line_output l))
                                 (filter (has_marker "f") lines)
    /\ List.length (Vertices parsed) = List.length (filter (has_marker "v") lines)
    /\ List.length (UVs parsed) = List.length (filter (has_marker "vt") lines)
    /\ parse_text "f 7" = inr (mkDoc [] [6%Z] [] 4).
Proof.
  intros text parsed H lines. apply parse_text_inr in H.
  destruct (parse_lines_order _ _ _ H) as (vs & us & Hvs & Hus & ->).
  cbn [Vertices Indices UVs new_parsed app].
  repeat split; try assumption.
  - symmetry. eapply Forall2_length; eauto.
  - symmetry. eapply Forall2_length; eauto.
Qed.

Lemma output_order_is_file_order_witness :
  let text := ("v 1 2 3" ++ String Py.LF ("vt 0 1" ++ String Py.LF
               ("f 1 2 3" ++ String Py.LF "v 4 5 6")))%string in
  let parsed := mkDoc [mkVertex (Py.float_of_Z 1) (Py.float_of_Z 2) (Py.float_of_Z 3);
                       mkVertex (Py.float_of_Z 4) (Py.float_of_Z 5) (Py.float_of_Z 6)]
                      [0; 1; 2]%Z
                      [mkUV (Py.float_of_Z 0) (Py.float_of_Z 1)] 4 in
  parse_text text = inr parsed
  /\ Forall2 (fun l v => line_output l = mkDoc [v] [] [] 4)
             (filter (has_marker "v") (Py.iter_lines text)) (Vertices parsed).
Proof.
  intros text parsed.
  assert (H : parse_text text = inr parsed) by (vm_compute; reflexivity).
  split; [exact H|].
  exact (proj1 (output_order_is_file_order text parsed H)).
Defined.

(** ** Lines that are too short *)

Lemma parse_vert_short_raises pram p :
  (List.length pram < 3)%nat ->
  exists e, parse_vert pram p = (inl e, p) /\ parse_failure e.
Proof.
  intros Hlen. rewrite parse_vert_cases. unfold parse_failure.
  destruct pram as [|a [|b [|c r]]]; cbn [List.length] in Hlen; try lia;
    repeat match goal with
           | |- context [match Py.float ?s with _ => _ end] =>
               destruct (Py.float s)
           end; eexists; split; try reflexivity; auto.
Qed.

Lemma parse_uv_short_raises pram p :
  (List.length pram < 2)%nat ->
  exists e, parse_uv pram p = (inl e, p) /\ parse_failure e.
Proof.
  intros Hlen. rewrite parse_uv_cases. unfold parse_failure.
  destruct pram as [|a [|b r]]; cbn [List.length] in Hlen; try lia;
    repeat match goal with
           | |- context [match Py.float ?s with _ => _ end] =>
               destruct (Py.float s)
           end; eexists; split; try reflexivity; auto.
Qed.

Lemma short_line_raises line p :
  short_line line ->
  exists e, parse_line line p = (inl e, p) /\ parse_failure e.
Proof.
  intros [[Hm Hlen]|[Hm Hlen]].
  - rewrite (parse_line_v _ _ Hm). now apply parse_vert_short_raises.
  - rewrite (parse_line_vt _ _ Hm). now apply parse_uv_short_raises.
Qed.

(** The claim C9 as it is written fails on the line [v a]: it has one
    parameter, fewer than three, and the run is ended by the [ValueError]
    of [float("a")], not by an index out of range. *)
Lemma short_line_counterexample :
  marker "v a" = "v"
  /\ params "v a" = ["a"]
  /\ (List.length (params "v a") < 3)%nat
  /\ parse_line "v a" new_parsed = (inl ValueError, new_parsed)
  /\ run (one_file "mesh.obj" "v a") ["mesh_converter.py"; "mesh.obj"; "mesh.json"]
     = (inl ValueError, [EOpen "mesh.obj" "r"])
  /\ ValueError <> IndexError.
Proof.
  split; [reflexivity|]. split; [reflexivity|].
  split; [vm_compute; lia|].
  split; [vm_compute; reflexivity|].
  split; [vm_compute; reflexivity|discriminate].
Qed.

(** C9, amended. A [v] line with fewer than three parameters, or a [vt]
    line with fewer than two, always raises, and leaves the document as it
    was. It raises [IndexError] when every parameter it has converts to a
    float, and [ValueError] when one of them does not. A run whose input
    holds such a line raises while it parses and writes nothing; it raises
    the [IndexError] of that line when the parameters convert and the
    lines before it were parsed without a raise. In general, when the
    lines before it were parsed without a raise, the run ends with the
    exception of that line, whichever it is: the [ValueError] when one of
    its parameters does not convert. *)
Theorem short_line_aborts :
  forall line p,
    short_line line ->
    (exists e, parse_line line p = (inl e, p) /\ parse_failure e)
    /\ (Forall (fun t => Py.float t <> None) (params line) ->
        parse_line line p = (inl IndexError, p))
    /\ ((exists t, In t (params line) /\ Py.float t = None) ->
        parse_line line p = (inl ValueError, p))
    /\ (forall env prog inp out text,
          final_suffix inp = Some ".obj" ->
          read_text env inp = Some text ->
          In line (Py.iter_lines text) ->
          exists e,
            run env [prog; inp; out] = (inl e, [EOpen inp "r"])
            /\ parse_failure e)
    /\ (forall env prog inp out text pre post,
          final_suffix inp = Some ".obj" ->
          read_text env inp = Some text ->
          Py.iter_lines text = pre ++ line :: post ->
          fst (parse_lines pre new_parsed) = inr tt ->
          Forall (fun t => Py.float t <> None) (params line) ->
          run env [prog; inp; out] = (inl IndexError, [EOpen inp "r"]))
    /\ (forall env prog inp out text pre post e,
          final_suffix inp = Some ".obj" ->
          read_text env inp = Some text ->
          Py.iter_lines text = pre ++ line :: post ->
          fst (parse_lines pre new_parsed) = inr tt ->
          fst (parse_line line new_parsed) = inl e ->
          run env [prog; inp; out] = (inl e, [EOpen inp "r"]))
    /\ (forall env prog inp out text pre post,
          final_suffix inp = Some ".obj" ->
          read_text env inp = Some text ->
          Py.iter_lines text = pre ++ line :: post ->
          fst (parse_lines pre new_parsed) = inr tt ->
          (exists t, In t (params line) /\ Py.float t = None) ->
          run env [prog; inp; out] = (inl ValueError, [EOpen inp "r"])).
Proof.
  intros line p Hshort.
  assert (Hfirst : forall env prog inp out text pre post e,
             final_suffix inp = Some ".obj" ->
             read_text env inp = Some text ->
             Py.iter_lines text = pre ++ line :: post ->
             fst (parse_lines pre new_parsed) = inr tt ->
             fst (parse_line line new_parsed) = inl e ->
             run env [prog; inp; out] = (inl e, [EOpen inp "r"])).
  { intros env prog inp out text pre post e Hs Hr Hsplit Hpre Hline.
    apply (run_parse_raises env prog inp out text e Hs Hr).
    apply parse_text_inl. rewrite Hsplit.
    destruct (parse_lines pre new_parsed) as [[e'|[]] mid] eqn:Epre;
      [discriminate|].
    now apply (parse_lines_first_failure pre line post _ _ _ Epre). }
  assert (Hbadline : forall q,
             (exists t, In t (params line) /\ Py.float t = None) ->
             parse_line line q = (inl ValueError, q)).
  { intros q Hbad. destruct Hshort as [[Hm Hlen]|[Hm Hlen]].
    - rewrite (parse_line_v _ _ Hm). apply parse_vert_bad.
      now rewrite firstn_short.
    - rewrite (parse_line_vt _ _ Hm). apply parse_uv_bad.
      now rewrite firstn_short. }
  assert (Hvalid : forall q,
             Forall (fun t => Py.float t <> None) (params line) ->
             parse_line line q = (inl IndexError, q)).
  { intros q Hall. destruct Hshort as [[Hm Hlen]|[Hm Hlen]].
    - rewrite (parse_line_v _ _ Hm). now apply parse_vert_short.
    - rewrite (parse_line_vt _ _ Hm). now apply parse_uv_short. }
  split; [now apply short_line_raises|].
  split; [apply Hvalid|].
  split; [apply Hbadline|].
  split; [|split; [|split]].
  - intros env prog inp out text Hs Hr Hin.
    destruct (short_line_raises line new_parsed Hshort) as (e0 & He0 & _).
    assert (Hline : fst (parse_line line new_parsed) = inl e0) by now rewrite He0.
    destruct (parse_lines_raise_if _ _ new_parsed _ Hin Hline) as (e & He).
    exists e. split.
    + apply (run_parse_raises env prog inp out text e Hs Hr).
      now apply parse_text_inl.
    + eapply parse_lines_exn; eauto.
  - intros env prog inp out text pre post Hs Hr Hsplit Hpre Hall.
    apply (run_parse_raises env prog inp out text IndexError Hs Hr).
    apply parse_text_inl. rewrite Hsplit.
    destruct (parse_lines pre new_parsed) as [[e'|[]] mid] eqn:Epre;
      [discriminate|].
    apply (parse_lines_first_failure pre line post _ _ _ Epre).
    now rewrite (Hvalid new_parsed Hall).
  - exact Hfirst.
  - intros env prog inp out text pre post Hs Hr Hsplit Hpre Hbad.
    apply (Hfirst env prog inp out text pre post ValueError Hs Hr Hsplit Hpre).
    now rewrite (Hbadline new_parsed Hbad).
Qed.

Lemma short_line_aborts_witness :
  short_line "v 1.0 2.0"
  /\ Forall (fun t => Py.float t <> None) (params "v 1.0 2.0")
  /\ parse_line "v 1.0 2.0" new_parsed = (inl IndexError, new_parsed)
  /\ short_line "vt 0.5"
  /\ parse_line "vt 0.5" new_parsed = (inl IndexError, new_parsed)
  /\ short_line "v 1.0 a"
  /\ (exists t, In t (params "v 1.0 a") /\ Py.float t = None)
  /\ run (one_file "mesh.obj" ("vt 0 1" ++ String Py.LF "v 1.0 a")%string)
         ["mesh_converter.py"; "mesh.obj"; "mesh.json"]
     = (inl ValueError, [EOpen "mesh.obj" "r"]).
Proof.
  assert (Hs : short_line "v 1.0 a").
  { left. split; [reflexivity|]. vm_compute. lia. }
  assert (Hbad : exists t, In t (params "v 1.0 a") /\ Py.float t = None).
  { exists "a". split; [right; left; reflexivity|reflexivity]. }
  assert (Hv : short_line "v 1.0 2.0").
  { left. split; [reflexivity|]. vm_compute. lia. }
  assert (Ha : Forall (fun t => Py.float t <> None) (params "v 1.0 2.0")).
  { change (params "v 1.0 2.0") with ["1.0"; "2.0"].
    repeat constructor; vm_compute; discriminate. }
  assert (Ht : short_line "vt 0.5").
  { right. split; [reflexivity|]. vm_compute. lia. }
  assert (Hb : Forall (fun t => Py.float t <> None) (params "vt 0.5")).
  { change (params "vt 0.5") with ["0.5"].
    repeat constructor; vm_compute; discriminate. }
  split; [exact Hv|]. split; [exact Ha|]. split.
  { exact (proj1 (proj2 (short_line_aborts _ new_parsed Hv)) Ha). }
  split; [exact Ht|]. split.
  { exact (proj1 (proj2 (short_line_aborts _ new_parsed Ht)) Hb). }
  split; [exact Hs|]. split; [exact Hbad|].
  exact (proj2 (proj2 (proj2 (proj2 (proj2 (proj2
           (short_line_aborts _ new_parsed Hs))))))
           (one_file "mesh.obj" ("vt 0 1" ++ String Py.LF "v 1.0 a")%string)
           "mesh_converter.py" "mesh.obj" "mesh.json" _
           [String "v" (String "t" (String " " (String "0" (String " "
              (String "1" (String Py.LF ""))))))] []
           eq_refl eq_refl eq_refl eq_refl Hbad).
Defined.

(* ================================================================== *)
(** * Further properties of the script *)
(* ================================================================== *)

(** ** [parse_uv] *)

(** X1. A UV line takes its first two parameters, in order, as U and V,
    stored under the keys X and Y; what follows them (a third component)
    is not looked at. *)
Theorem uv_line_is_positional :
  forall line a b rest u v p,
    tokens line = "vt" :: a :: b :: rest ->
    Py.float a = Some u -> Py.float b = Some v ->
    parse_line line p =
      (inr tt, mkDoc (Vertices p) (Indices p) (UVs p ++ [mkUV u v])
                     (PrimitiveType p))
    /\ json_of_uv (mkUV u v) = JObject [("X", JFloat u); ("Y", JFloat v)].
Proof.
  intros line a b rest u v p Htok Ha Hb.
  assert (Hm : marker line = "vt") by (unfold marker; now rewrite Htok).
  assert (Hp : params line = a :: b :: rest) by (unfold params; now rewrite Htok).
  split; [|reflexivity].
  rewrite (parse_line_vt _ _ Hm), Hp, parse_uv_cases. now rewrite Ha, Hb.
Qed.

Lemma uv_line_is_positional_witness :
  tokens "vt 0.5 0.25 0.0" = "vt" :: "0.5" :: "0.25" :: ["0.0"]
  /\ Py.float "0.5" = Some (S754_finite false 4503599627370496 (-53))
  /\ Py.float "0.25" = Some (S754_finite false 4503599627370496 (-54))
  /\ parse_line "vt 0.5 0.25 0.0" new_parsed =
     (inr tt, mkDoc [] [] [mkUV (S754_finite false 4503599627370496 (-53))
                                (S754_finite false 4503599627370496 (-54))] 4).
Proof.
  assert (Ht : tokens "vt 0.5 0.25 0.0" = "vt" :: "0.5" :: "0.25" :: ["0.0"])
    by reflexivity.
  assert (Ha : Py.float "0.5" = Some (S754_finite false 4503599627370496 (-53)))
    by (vm_compute; reflexivity).
  assert (Hb : Py.float "0.25" = Some (S754_finite false 4503599627370496 (-54)))
    by (vm_compute; reflexivity).
  repeat (split; [assumption|]).
  exact (proj1 (uv_line_is_positional _ _ _ _ _ _ new_parsed Ht Ha Hb)).
Defined.

(** ** [parse_indices] *)

Lemma for_each_index_step_inr pram p :
  fst (for_each pram index_step p) = inr tt ->
  Forall (fun t => vertex_ref t <> None) pram.
Proof.
  revert p. induction pram as [|a pram IH]; intros p H; [constructor|].
  cbn [for_each] in H. unfold bind in H. rewrite index_step_cases in H.
  destruct (vertex_ref a) as [k|] eqn:Ha; [|discriminate].
  constructor; [congruence|]. eapply IH; eauto.
Qed.

Lemma Forall_converts pram :
  Forall (fun t => vertex_ref t <> None) pram ->
  exists ks, Forall2 (fun tok k => vertex_ref tok = Some k) pram ks.
Proof.
  induction 1 as [|t pram Ht _ [ks IH]].
  - exists []. constructor.
  - destruct (vertex_ref t) as [k|] eqn:E; [|congruence].
    exists (k :: ks). now constructor.
Qed.

(** X2. [parse_indices] returns exactly when the vertex index of every
    reference converts; it has no lower bound on the number of references
    (none at all is accepted and appends nothing), and the only exception
    it raises is [ValueError]: its two subscripts, [pram[i]] and [div[0]],
    are always in range. *)
Theorem parse_indices_returns_iff :
  forall pram p,
    (fst (parse_indices pram p) = inr tt <->
     Forall (fun t => vertex_ref t <> None) pram)
    /\ (forall e, fst (parse_indices pram p) = inl e -> e = ValueError)
    /\ parse_indices [] p = (inr tt, p).
Proof.
  intros pram p. rewrite parse_indices_for_each. split; [split|split].
  - apply for_each_index_step_inr.
  - intros H. destruct (Forall_converts _ H) as [ks Hks].
    now rewrite (for_each_index_step_ok _ _ p Hks).
  - intros e. apply for_each_index_step_exn.
  - reflexivity.
Qed.

(** X3. [parse_indices] appends as it goes: when a reference does not
    convert, the indices of the references before it are already in the
    document that the [ValueError] leaves behind, and those after it are
    not. *)
Theorem parse_indices_keeps_prefix_on_raise :
  forall pre bad post ks p,
    Forall2 (fun tok k => vertex_ref tok = Some k) pre ks ->
    vertex_ref bad = None ->
    parse_indices (pre ++ bad :: post) p =
      (inl ValueError, add_indices p (map (fun k => k - 1)%Z ks)).
Proof.
  intros pre bad post ks p Hpre Hbad.
  rewrite parse_indices_for_each, for_each_app.
  unfold bind. rewrite (for_each_index_step_ok _ _ p Hpre).
  cbn [for_each]. unfold bind. rewrite index_step_cases, Hbad. reflexivity.
Qed.

Lemma parse_indices_keeps_prefix_on_raise_witness :
  Forall2 (fun tok k => vertex_ref tok = Some k) ["1/1"; "2/2"] [1; 2]%Z
  /\ vertex_ref "x/3" = None
  /\ parse_indices (["1/1"; "2/2"] ++ "x/3" :: ["4/4"]) new_parsed =
     (inl ValueError, mkDoc [] [0; 1]%Z [] 4).
Proof.
  assert (H : Forall2 (fun tok k => vertex_ref tok = Some k) ["1/1"; "2/2"] [1; 2]%Z)
    by (repeat constructor).
  assert (Hb : vertex_ref "x/3" = None) by reflexivity.
  split; [exact H|]. split; [exact Hb|].
  exact (parse_indices_keeps_prefix_on_raise _ _ ["4/4"] _ new_parsed H Hb).
Defined.

(** ** [parse_vert] and [parse_uv] *)

Ltac float_cases :=
  repeat match goal with
         | |- context [match Py.float ?s with _ => _ end] =>
             destruct (Py.float s) eqn:?
         | H : context [match Py.float ?s with _ => _ end] |- _ =>
             destruct (Py.float s) eqn:?
         end.

(** X4. [parse_vert] returns exactly when it has three parameters at least
    and the first three convert, and [parse_uv] when it has two and they
    convert; when they raise they have not touched the document yet: the
    entry is appended only after all its numbers are read. *)
Theorem vertex_and_uv_returns_iff :
  forall pram p,
    (fst (parse_vert pram p) = inr tt <->
     exists a b c rest,
       pram = a :: b :: c :: rest
       /\ Py.float a <> None /\ Py.float b <> None /\ Py.float c <> None)
    /\ (fst (parse_uv pram p) = inr tt <->
        exists a b rest,
          pram = a :: b :: rest /\ Py.float a <> None /\ Py.float b <> None)
    /\ (forall e, fst (parse_vert pram p) = inl e ->
                  snd (parse_vert pram p) = p /\ parse_failure e)
    /\ (forall e, fst (parse_uv pram p) = inl e ->
                  snd (parse_uv pram p) = p /\ parse_failure e).
Proof.
  intros pram p. rewrite parse_vert_cases, parse_uv_cases.
  unfold parse_failure. split; [split|split; [split|split]].
  - destruct pram as [|a [|b [|c r]]]; float_cases; try discriminate.
    intros _. exists a, b, c, r. repeat split; congruence.
  - intros (a & b & c & r & -> & Ha & Hb & Hc).
    float_cases; try reflexivity; congruence.
  - destruct pram as [|a [|b r]]; float_cases; try discriminate.
    intros _. exists a, b, r. repeat split; congruence.
  - intros (a & b & r & -> & Ha & Hb).
    float_cases; try reflexivity; congruence.
  - intros e H.
    destruct pram as [|a [|b [|c r]]]; float_cases; simpl in *;
      try discriminate; inversion H; auto.
  - intros e H.
    destruct pram as [|a [|b r]]; float_cases; simpl in *;
      try discriminate; inversion H; auto.
Qed.

(** ** The loop of [parse_mesh] *)

(** X5. The parsers only append: run on a document that holds entries
    already, a line, and the whole loop, do what they do on an empty
    document, raise what they raise there, and leave the earlier entries in
    front, unchanged, also when they raise. *)
Theorem lines_only_append :
  forall lines line p,
    parse_lines lines p =
      (fst (parse_lines lines new_parsed),
       extend p (snd (parse_lines lines new_parsed)))
    /\ parse_line line p =
       (fst (parse_line line new_parsed), extend p (line_output line)).
Proof.
  intros lines line p. split.
  - rewrite <- (extend_new_r p) at 1. apply framed_parse_lines.
  - apply parse_line_frame.
Qed.

Lemma parse_lines_ok lines :
  Forall line_ok lines ->
  forall p, parse_lines lines p =
            (inr tt, fold_left extend (map line_output lines) p).
Proof.
  induction 1 as [|l lines Hl _ IH]; intros p.
  - reflexivity.
  - rewrite parse_lines_cons, parse_line_frame.
    unfold line_ok in Hl. rewrite Hl. cbn [map fold_left]. apply IH.
Qed.

Lemma parse_lines_inr_ok lines p p' :
  parse_lines lines p = (inr tt, p') -> Forall line_ok lines.
Proof.
  revert p. induction lines as [|l lines IH]; intros p H; [constructor|].
  rewrite parse_lines_cons, parse_line_frame in H.
  destruct (fst (parse_line l new_parsed)) as [e|[]] eqn:Hl; [discriminate|].
  constructor; [exact Hl|]. eapply IH; eauto.
Qed.

(** X6. The lines of a file are parsed independently of each other: the
    file is parsed to the end exactly when each of its lines is parsed
    without a raise on its own, and the document is then what the lines
    give, joined in their order; otherwise the exception is that of the
    first line that raises on its own. *)
Theorem file_parses_iff_lines_parse :
  forall text,
    (forall parsed,
       parse_text text = inr parsed <->
       Forall line_ok (Py.iter_lines text)
       /\ parsed = join_outputs (Py.iter_lines text))
    /\ (forall pre line post e,
          Py.iter_lines text = pre ++ line :: post ->
          Forall line_ok pre ->
          fst (parse_line line new_parsed) = inl e ->
          parse_text text = inl e).
Proof.
  intros text. split.
  - intros parsed. rewrite parse_text_inr. split.
    + intros H. pose proof (parse_lines_inr_ok _ _ _ H) as Hok.
      split; [exact Hok|].
      rewrite (parse_lines_ok _ Hok) in H. now inversion H.
    + intros [Hok ->]. apply (parse_lines_ok _ Hok).
  - intros pre line post e Hsplit Hpre Hline.
    apply parse_text_inl. rewrite Hsplit.
    eapply parse_lines_first_failure; [apply (parse_lines_ok _ Hpre)|exact Hline].
Qed.

Lemma Forall2_flat_map {A B C} (R : B -> C -> Prop)
      (f : A -> list B) (g : A -> list C) (l : list A) :
  Forall (fun a => Forall2 R (f a) (g a)) l ->
  Forall2 R (flat_map f l) (flat_map g l).
Proof.
  induction 1 as [|a l Ha _ IH]; cbn [flat_map].
  - constructor.
  - now apply Forall2_app.
Qed.

Lemma Forall2_minus_one pram ks :
  Forall2 (fun tok k => vertex_ref tok = Some k) pram ks ->
  Forall2 (fun tok k => vertex_ref tok = Some (k + 1)%Z) pram
          (map (fun k => k - 1)%Z ks).
Proof.
  induction 1 as [|t k pram ks Hk _ IH]; cbn [map]; constructor.
  - rewrite Hk. f_equal. lia.
  - exact IH.
Qed.

Lemma face_line_output line :
  line_ok line -> marker line = "f" ->
  Forall2 (fun tok k => vertex_ref tok = Some (k + 1)%Z)
          (params line) (Indices (line_output line)).
Proof.
  unfold line_ok, line_output. intros Hok Hm.
  rewrite (parse_line_f _ _ Hm), parse_indices_for_each in *.
  destruct (Forall_converts _ (for_each_index_step_inr _ _ Hok)) as [ks Hks].
  rewrite (for_each_index_step_ok _ _ new_parsed Hks).
  cbn [snd Indices new_parsed app]. now apply Forall2_minus_one.
Qed.

Lemma face_lines_refs lines :
  Forall line_ok lines ->
  Forall2 (fun tok k => vertex_ref tok = Some (k + 1)%Z)
          (flat_map params (filter (has_marker "f") lines))
          (flat_map (fun l => Indices (line_output l))
                    (filter (has_marker "f") lines)).
Proof.
  intros Hok. apply Forall2_flat_map. apply Forall_forall. intros l Hl.
  apply filter_In in Hl. destruct Hl as [Hin Hm].
  apply face_line_output.
  - eapply Forall_forall; eauto.
  - now apply String.eqb_eq.
Qed.

(** X7. In the document of a file, [Indices] has one entry for each face
    reference of the file, in the order of the references across all the
    face lines: the entry is the vertex index of the reference minus one,
    with no grouping by face left. *)
Theorem indices_follow_references :
  forall text parsed,
    parse_text text = inr parsed ->
    Forall2 (fun tok k => vertex_ref tok = Some (k + 1)%Z)
            (flat_map params (filter (has_marker "f") (Py.iter_lines text)))
            (Indices parsed).
Proof.
  intros text parsed H. apply parse_text_inr in H.
  pose proof (parse_lines_inr_ok _ _ _ H) as Hok.
  destruct (parse_lines_order _ _ _ H) as (vs & us & _ & _ & ->).
  cbn [Indices new_parsed app].
  now apply face_lines_refs.
Qed.

Lemma indices_follow_references_witness :
  let text := ("f 1/1 2/2 3/3" ++ String Py.LF ("v 0 0 0" ++ String Py.LF
               "f 3 4 1 2"))%string in
  let parsed := mkDoc [mkVertex (Py.float_of_Z 0) (Py.float_of_Z 0) (Py.float_of_Z 0)]
                      [0; 1; 2; 2; 3; 0; 1]%Z [] 4 in
  parse_text text = inr parsed
  /\ Forall2 (fun tok k => vertex_ref tok = Some (k + 1)%Z)
             (flat_map params (filter (has_marker "f") (Py.iter_lines text)))
             (Indices parsed).
Proof.
  intros text parsed.
  assert (H : parse_text text = inr parsed) by (vm_compute; reflexivity).
  split; [exact H|].
  exact (indices_follow_references text parsed H).
Defined.

(** ** White space around a line *)

Lemma append_nil_r (s : string) : (s ++ "")%string = s.
Proof. induction s as [|c s IH]; simpl; [reflexivity|now rewrite IH]. Qed.

Lemma append_assoc (a b c : string) :
  ((a ++ b) ++ c)%string = (a ++ (b ++ c))%string.
Proof. induction a as [|x a IH]; simpl; [reflexivity|now rewrite IH]. Qed.

Lemma lstrip_space_app w s :
  all_space w = true ->
  Py.lstrip_by Py.isspace (w ++ s)%string = Py.lstrip_by Py.isspace s.
Proof.
  induction w as [|c w IH]; simpl; [reflexivity|].
  intros H. apply andb_true_iff in H. destruct H as [Hc Hw].
  rewrite Hc. now apply IH.
Qed.

Lemma rstrip_space w :
  all_space w = true -> Py.rstrip_by Py.isspace w = "".
Proof.
  induction w as [|c w IH]; simpl; [reflexivity|].
  intros H. apply andb_true_iff in H. destruct H as [Hc Hw].
  now rewrite (IH Hw), Hc.
Qed.

Lemma rstrip_app_space s w :
  all_space w = true ->
  Py.rstrip_by Py.isspace (s ++ w)%string = Py.rstrip_by Py.isspace s.
Proof.
  intros Hw. induction s as [|c s IH]; simpl.
  - now apply rstrip_space.
  - now rewrite IH.
Qed.

Lemma rstrip_space_app w s :
  all_space w = true ->
  Py.rstrip_by Py.isspace (w ++ s)%string =
  match Py.rstrip_by Py.isspace s with
  | EmptyString => EmptyString
  | r => (w ++ r)%string
  end.
Proof.
  induction w as [|c w IH]; simpl.
  - intros _. now destruct (Py.rstrip_by Py.isspace s).
  - intros H. apply andb_true_iff in H. destruct H as [Hc Hw].
    rewrite (IH Hw). destruct (Py.rstrip_by Py.isspace s).
    + now rewrite Hc.
    + now destruct w.
Qed.

(** [strip] does not see the white space around its argument. *)
Lemma strip_around w1 s w2 :
  all_space w1 = true -> all_space w2 = true ->
  Py.strip (w1 ++ s ++ w2)%string = Py.strip s.
Proof.
  intros H1 H2. unfold Py.strip, Py.strip_by.
  rewrite <- append_assoc, (rstrip_app_space _ _ H2), (rstrip_space_app _ _ H1).
  destruct (Py.rstrip_by Py.isspace s) as [|c r] eqn:E; [reflexivity|].
  now apply lstrip_space_app.
Qed.

(** X8. White space before and after a line, such as an indentation, a
    trailing blank or the line terminator, has no effect on what the line
    does: the line is stripped before it is split. *)
Theorem white_space_around_line_is_ignored :
  forall w1 line w2 p,
    all_space w1 = true -> all_space w2 = true ->
    parse_line (w1 ++ line ++ w2)%string p = parse_line line p.
Proof.
  intros w1 line w2 p H1 H2. unfold parse_line.
  now rewrite (strip_around _ _ _ H1 H2).
Qed.

Lemma white_space_around_line_is_ignored_witness :
  all_space "  " = true
  /\ all_space (String "009" (String Py.CR (String Py.LF ""))) = true
  /\ parse_line ("  " ++ "v 1 2 3" ++ String "009" (String Py.CR (String Py.LF "")))%string
                new_parsed
     = parse_line "v 1 2 3" new_parsed.
Proof.
  assert (H1 : all_space "  " = true) by reflexivity.
  assert (H2 : all_space (String "009" (String Py.CR (String Py.LF ""))) = true)
    by reflexivity.
  split; [exact H1|]. split; [exact H2|].
  exact (white_space_around_line_is_ignored _ "v 1 2 3" _ new_parsed H1 H2).
Defined.

(** ** Line terminators *)

Lemma iter_lines_crlf text :
  lacks Py.CR text = true ->
  Py.iter_lines (crlf text) = Py.iter_lines text.
Proof.
  induction text as [|c r IH]; [reflexivity|].
  cbn [lacks crlf]. intros H. apply andb_true_iff in H. destruct H as [Hc Hr].
  apply negb_true_iff in Hc.
  destruct (Ascii.eqb c Py.LF) eqn:Hlf.
  - apply Ascii.eqb_eq in Hlf. subst c.
    change (Py.iter_lines (String Py.CR (String Py.LF (crlf r))))
      with (String Py.LF "" :: Py.iter_lines (crlf r)).
    change (Py.iter_lines (String Py.LF r))
      with (String Py.LF "" :: Py.iter_lines r).
    now rewrite (IH Hr).
  - cbn [Py.iter_lines]. rewrite Hlf, Hc. now rewrite (IH Hr).
Qed.

(** X9. A file with the line terminators of Windows is parsed as the same
    file with line feeds alone. *)
Theorem crlf_file_parses_the_same :
  forall text,
    lacks Py.CR text = true ->
    parse_text (crlf text) = parse_text text.
Proof.
  intros text H. unfold parse_text. now rewrite (iter_lines_crlf _ H).
Qed.

Lemma crlf_file_parses_the_same_witness :
  let text := ("v 1 2 3" ++ String Py.LF ("f 1 1 1" ++ String Py.LF ""))%string in
  lacks Py.CR text = true
  /\ crlf text = ("v 1 2 3" ++ String Py.CR (String Py.LF
                  ("f 1 1 1" ++ String Py.CR (String Py.LF ""))))%string
  /\ parse_text (crlf text) = parse_text text.
Proof.
  intros text.
  assert (H : lacks Py.CR text = true) by reflexivity.
  split; [exact H|]. split; [reflexivity|].
  exact (crlf_file_parses_the_same text H).
Defined.

Lemma lacks_app c u v :
  lacks c (u ++ v)%string = lacks c u && lacks c v.
Proof.
  induction u as [|x u IH]; simpl; [reflexivity|].
  now rewrite IH, andb_assoc.
Qed.

Lemma lacks_snoc c u x :
  lacks c u = true -> Ascii.eqb x c = false ->
  lacks c (u ++ String x "")%string = true.
Proof. intros Hu Hx. rewrite lacks_app, Hu. simpl. now rewrite Hx. Qed.

Lemma append_snoc u c s :
  (u ++ String c s)%string = ((u ++ String c "") ++ s)%string.
Proof. now rewrite append_assoc. Qed.

(** A stretch of text without a terminator is one line, or none. *)
Lemma iter_lines_plain u :
  lacks Py.LF u = true -> lacks Py.CR u = true ->
  Py.iter_lines u = match u with EmptyString => [] | _ => [u] end.
Proof.
  induction u as [|c u IH]; [reflexivity|].
  cbn [lacks]. intros H1 H2.
  apply andb_true_iff in H1. destruct H1 as [Hc1 Hu1].
  apply andb_true_iff in H2. destruct H2 as [Hc2 Hu2].
  apply negb_true_iff in Hc1, Hc2.
  cbn [Py.iter_lines]. rewrite Hc1, Hc2, (IH Hu1 Hu2). now destruct u.
Qed.

(** A line feed ends the line that was begun. *)
Lemma iter_lines_lf u rest :
  lacks Py.LF u = true -> lacks Py.CR u = true ->
  Py.iter_lines (u ++ String Py.LF rest)%string =
  (u ++ String Py.LF "")%string :: Py.iter_lines rest.
Proof.
  induction u as [|c u IH]; [reflexivity|].
  cbn [lacks]. intros H1 H2.
  apply andb_true_iff in H1. destruct H1 as [Hc1 Hu1].
  apply andb_true_iff in H2. destruct H2 as [Hc2 Hu2].
  apply negb_true_iff in Hc1, Hc2.
  cbn [append Py.iter_lines]. now rewrite Hc1, Hc2, (IH Hu1 Hu2).
Qed.

(** So does a carriage return, with the line feed after it if there is
    one. *)
Lemma iter_lines_cr u rest :
  lacks Py.LF u = true -> lacks Py.CR u = true ->
  Py.iter_lines (u ++ String Py.CR rest)%string =
  (u ++ String Py.LF "")%string ::
  match rest with
  | String c' r' => if Ascii.eqb c' Py.LF then Py.iter_lines r'
                    else Py.iter_lines rest
  | EmptyString => []
  end.
Proof.
  induction u as [|c u IH]; [reflexivity|].
  cbn [lacks]. intros H1 H2.
  apply andb_true_iff in H1. destruct H1 as [Hc1 Hu1].
  apply andb_true_iff in H2. destruct H2 as [Hc2 Hu2].
  apply negb_true_iff in Hc1, Hc2.
  cbn [append Py.iter_lines]. now rewrite Hc1, Hc2, (IH Hu1 Hu2).
Qed.

Lemma parse_line_terminated u p :
  parse_line (u ++ String Py.LF "")%string p = parse_line u p.
Proof.
  unfold parse_line.
  pose proof (strip_around "" u (String Py.LF "") eq_refl eq_refl) as H.
  cbn [append] in H. now rewrite H.
Qed.

(** A line feed at the end of the text changes nothing for the loop;
    [u] is the part of the current line that was read already. *)
Lemma parse_final_lf_aux n :
  forall t u p,
    (String.length t <= n)%nat ->
    lacks Py.LF u = true -> lacks Py.CR u = true ->
    parse_lines (Py.iter_lines (u ++ t ++ String Py.LF "")%string) p =
    parse_lines (Py.iter_lines (u ++ t)%string) p.
Proof.
  induction n as [|n IH]; intros t u p Hlen Hu1 Hu2;
    (destruct t as [|c r]; [|cbn [String.length] in Hlen]).
  1,3: cbn [append]; rewrite append_nil_r, (iter_lines_lf _ _ Hu1 Hu2),
         (iter_lines_plain _ Hu1 Hu2); cbn [Py.iter_lines];
       destruct u; [reflexivity|];
       rewrite !parse_lines_cons, parse_line_terminated; reflexivity.
  - lia.
  - destruct (Ascii.eqb c Py.LF) eqn:Hlf; [|destruct (Ascii.eqb c Py.CR) eqn:Hcr].
    + apply Ascii.eqb_eq in Hlf. subst c. cbn [append].
      rewrite !(iter_lines_lf _ _ Hu1 Hu2), !parse_lines_cons.
      destruct (parse_line _ p) as [[e|[]] p1]; [reflexivity|].
      apply (IH r "" p1); [lia|reflexivity|reflexivity].
    + apply Ascii.eqb_eq in Hcr. subst c. cbn [append].
      rewrite !(iter_lines_cr _ _ Hu1 Hu2), !parse_lines_cons.
      destruct (parse_line _ p) as [[e|[]] p1]; [reflexivity|].
      destruct r as [|c' r']; [reflexivity|]. cbn [append String.length] in *.
      destruct (Ascii.eqb c' Py.LF).
      * apply (IH r' "" p1); [lia|reflexivity|reflexivity].
      * apply (IH (String c' r') "" p1); [cbn [String.length]; lia|reflexivity|reflexivity].
    + cbn [append]. rewrite (append_snoc u c), (append_snoc u c r).
      apply IH; [lia|now apply lacks_snoc|now apply lacks_snoc].
Qed.

(** The lines of two texts joined by a line feed are the lines of the
    first, ended by the line feed, and then the lines of the second. *)
Lemma iter_lines_join_aux n :
  forall t1 u t2,
    (String.length t1 <= n)%nat ->
    lacks Py.LF u = true -> lacks Py.CR u = true ->
    Py.iter_lines (u ++ t1 ++ String Py.LF t2)%string =
    Py.iter_lines (u ++ t1 ++ String Py.LF "")%string ++ Py.iter_lines t2.
Proof.
  induction n as [|n IH]; intros t1 u t2 Hlen Hu1 Hu2;
    (destruct t1 as [|c r]; [|cbn [String.length] in Hlen]).
  1,3: cbn [append]; now rewrite !(iter_lines_lf _ _ Hu1 Hu2).
  - lia.
  - destruct (Ascii.eqb c Py.LF) eqn:Hlf; [|destruct (Ascii.eqb c Py.CR) eqn:Hcr].
    + apply Ascii.eqb_eq in Hlf. subst c. cbn [append].
      rewrite !(iter_lines_lf _ _ Hu1 Hu2). cbn [app]. f_equal.
      apply (IH r "" t2); [lia|reflexivity|reflexivity].
    + apply Ascii.eqb_eq in Hcr. subst c. cbn [append].
      rewrite !(iter_lines_cr _ _ Hu1 Hu2). cbn [app]. f_equal.
      destruct r as [|c' r']; [reflexivity|]. cbn [append String.length] in *.
      destruct (Ascii.eqb c' Py.LF).
      * apply (IH r' "" t2); [lia|reflexivity|reflexivity].
      * apply (IH (String c' r') "" t2); [cbn [String.length]; lia|reflexivity|reflexivity].
    + cbn [append].
      rewrite (append_snoc u c), (append_snoc u c (r ++ String Py.LF "")).
      apply IH; [lia|now apply lacks_snoc|now apply lacks_snoc].
Qed.

Lemma parse_lines_final_lf text p :
  parse_lines (Py.iter_lines (text ++ String Py.LF "")%string) p =
  parse_lines (Py.iter_lines text) p.
Proof.
  exact (parse_final_lf_aux (String.length text) text "" p
           (Nat.le_refl _) eq_refl eq_refl).
Qed.

Lemma iter_lines_join text1 text2 :
  Py.iter_lines (text1 ++ String Py.LF text2)%string =
  Py.iter_lines (text1 ++ String Py.LF "")%string ++ Py.iter_lines text2.
Proof.
  exact (iter_lines_join_aux (String.length text1) text1 "" text2
           (Nat.le_refl _) eq_refl eq_refl).
Qed.

(** X10. A line feed at the end of the file makes no difference: the file
    is parsed to the same document, or raises the same exception, with it
    and without it. *)
Theorem final_newline_is_irrelevant :
  forall text,
    parse_text (text ++ String Py.LF "")%string = parse_text text.
Proof.
  intros text. unfold parse_text. now rewrite parse_lines_final_lf.
Qed.

(** X11. Two files joined by a line feed are parsed to the document of the
    first followed by the entries of the second, sequence by sequence;
    when the first raises, so does the whole, with that exception, and
    otherwise the exception is that of the second. *)
Theorem joined_files_parse_to_joined_documents :
  forall text1 text2,
    parse_text (text1 ++ String Py.LF text2)%string =
    match parse_text text1 with
    | inl e => inl e
    | inr parsed1 =>
        match parse_text text2 with
        | inl e => inl e
        | inr parsed2 => inr (extend parsed1 parsed2)
        end
    end.
Proof.
  intros text1 text2. unfold parse_text.
  rewrite iter_lines_join, parse_lines_app, parse_lines_final_lf.
  destruct (parse_lines (Py.iter_lines text1) new_parsed) as [[e|[]] d1];
    [reflexivity|].
  rewrite <- (extend_new_r d1) at 1.
  rewrite (framed_parse_lines (Py.iter_lines text2) d1 new_parsed).
  destruct (parse_lines (Py.iter_lines text2) new_parsed) as [[e|[]] d2];
    reflexivity.
Qed.

(** ** Lines without a space *)

Lemma split_lacks sep s : lacks sep s = true -> Py.split sep s = [s].
Proof.
  induction s as [|c s IH]; [reflexivity|].
  cbn [lacks Py.split]. intros H. apply andb_true_iff in H.
  destruct H as [Hc Hs]. apply negb_true_iff in Hc.
  now rewrite Hc, (IH Hs).
Qed.

(** X12. Only the space separates the tokens. A line that has none once it
    is stripped, for instance one whose fields stand apart by tabs, is a
    single token: it is skipped without a word, unless it is the bare
    marker [v] or [vt], which raises [IndexError]; the bare marker [f]
    returns and appends nothing. The document is left as it was in every
    case. *)
Theorem line_without_space_is_one_token :
  forall line p,
    lacks " " (Py.strip line) = true ->
    parse_line line p =
      (if String.eqb (Py.strip line) "v" || String.eqb (Py.strip line) "vt"
       then inl IndexError else inr tt, p).
Proof.
  intros line p H. rewrite parse_line_unfold.
  unfold recognized, marker, params, tokens. rewrite (split_lacks _ _ H).
  cbn [hd tl]. unfold Py.contains, VALID_VAR, VERT_NAME, UV_NAME, INDICES_NAME.
  cbn [existsb].
  destruct (String.eqb (Py.strip line) "v"); [reflexivity|].
  destruct (String.eqb (Py.strip line) "vt"); [reflexivity|].
  destruct (String.eqb (Py.strip line) "f"); reflexivity.
Qed.

Lemma line_without_space_is_one_token_witness :
  let line := String "v" (String "009" (String "1" (String "009"
              (String "2" (String "009" (String "3" "")))))) in
  lacks " " (Py.strip line) = true
  /\ parse_line line new_parsed = (inr tt, new_parsed)
  /\ parse_line "vt" new_parsed = (inl IndexError, new_parsed).
Proof.
  intros line.
  assert (H : lacks " " (Py.strip line) = true) by reflexivity.
  assert (H' : lacks " " (Py.strip "vt") = true) by reflexivity.
  split; [exact H|]. split.
  - exact (line_without_space_is_one_token line new_parsed H).
  - exact (line_without_space_is_one_token "vt" new_parsed H').
Defined.

(** ** The main program *)

(** X13. A run returns exactly when it is given two arguments, the final
    suffix of the first is [.obj], the input can be opened and is parsed to
    the end, the three counts can be printed, every integer of the
    document can be written by [json.dumps], the output can be opened and
    written, and the report can be printed; its trace is then the opening of the input,
    the three counts, the opening of the output, one write of the whole
    document and the report. *)
Theorem run_returns_iff :
  forall env argv tr,
    run env argv = (inr tt, tr) <->
    exists prog inp out text parsed,
      argv = [prog; inp; out]
      /\ final_suffix inp = Some ".obj"
      /\ read_text env inp = Some text
      /\ parse_text text = inr parsed
      /\ print_fails env (vertices_message parsed) = None
      /\ print_fails env (indices_message parsed) = None
      /\ print_fails env (uvs_message parsed) = None
      /\ json_dumps parsed = Some (json_value parsed)
      /\ can_write env out = true
      /\ write_fails env out = false
      /\ print_fails env (export_message out) = None
      /\ tr = success_trace inp out parsed.
Proof.
  intros env argv tr. split.
  - intros H.
    destruct (Nat.eq_dec (List.length argv) 3) as [Hlen|Hlen].
    2:{ rewrite (run_wrong_argc env argv Hlen) in H. discriminate. }
    destruct (length_3_inv argv Hlen) as (prog & inp & out & ->).
    rewrite run_cases in H.
    destruct (final_suffix inp) as [suffix|] eqn:Hf; [|discriminate].
    destruct (String.eqb suffix ".obj") eqn:Hs; [|discriminate].
    apply String.eqb_eq in Hs. subst suffix. cbn [negb] in H.
    destruct (read_text env inp) as [text|] eqn:Hr; [|discriminate].
    destruct (parse_text text) as [e|parsed] eqn:Hp; [discriminate|].
    destruct (print_fails env (vertices_message parsed)) eqn:H1; [discriminate|].
    destruct (print_fails env (indices_message parsed)) eqn:H2; [discriminate|].
    destruct (print_fails env (uvs_message parsed)) eqn:H3; [discriminate|].
    destruct (json_dumps parsed) as [json_p|] eqn:Hj; [|discriminate].
    pose proof (json_dumps_Some _ _ Hj) as ->.
    destruct (can_write env out) eqn:Hw; [|discriminate].
    destruct (write_fails env out) eqn:Hwf; [discriminate|].
    destruct (print_fails env (export_message out)) eqn:H4; [discriminate|].
    inversion H. exists prog, inp, out, text, parsed. now repeat split.
  - intros (prog & inp & out & text & parsed
            & -> & Hs & Hr & Hp & H1 & H2 & H3 & Hj & Hw & Hwf & H4 & ->).
    now rewrite run_cases, Hs, Hr, Hp, H1, H2, H3, Hj, Hw, Hwf, H4.
Qed.

Lemma run_3_args (argv : list string) :
  List.length argv = 3%nat ->
  exists prog inp out,
    argv = [prog; inp; out]
    /\ Py.index argv 1 = Some inp /\ Py.index argv 2 = Some out.
Proof.
  intros H. destruct (length_3_inv argv H) as (prog & inp & out & ->).
  now exists prog, inp, out.
Qed.

Ltac in_cases H :=
  repeat (destruct H as [H|H];
          [try discriminate; try (inversion H; subst; clear H)|]);
  try contradiction.

Ltac run_trace_cases :=
  unfold unwritable_trace, failed_write_trace, parsed_trace, writes;
  cbn [fst snd app filter is_write List.length];
  split; [|split; [|split; [|split]]];
  [ intros ?path ?mode Hin; in_cases Hin; auto
  | intros ?path ?data Hin; in_cases Hin
  | intros ?path Hin; in_cases Hin; try reflexivity
  | lia
  | intros ?e He; try discriminate; try (left; reflexivity) ].

(** X14. A run goes to no file but those of its arguments: it opens the
    first to read and the second to write and nothing else; it writes once
    at most, to the second, and what it writes in full is the whole
    document of the input parsed to its end. A run that raises has written
    nothing, with two exceptions: the write itself was refused, and the
    file may hold a part of the document; or the last print raised, which
    comes after the write. *)
Theorem run_touches_only_its_arguments :
  forall env argv,
    (forall path mode,
       In (EOpen path mode) (snd (run env argv)) ->
       (Py.index argv 1 = Some path /\ mode = "r")
       \/ (Py.index argv 2 = Some path /\ mode = "w"))
    /\ (forall path data,
          In (EWrite path data) (snd (run env argv)) ->
          Py.index argv 2 = Some path
          /\ exists inp text parsed,
               Py.index argv 1 = Some inp
               /\ read_text env inp = Some text
               /\ parse_text text = inr parsed
               /\ data = json_value parsed)
    /\ (forall path,
          In (EWriteFailed path) (snd (run env argv)) ->
          Py.index argv 2 = Some path)
    /\ (List.length (writes (snd (run env argv))) <= 1)%nat
    /\ (forall e,
          fst (run env argv) = inl e ->
          writes (snd (run env argv)) = []
          \/ (exists out,
                Py.index argv 2 = Some out
                /\ write_fails env out = true
                /\ e = OSError
                /\ writes (snd (run env argv)) = [EWriteFailed out])
          \/ (exists out f,
                Py.index argv 2 = Some out
                /\ print_fails env (export_message out) = Some f
                /\ e = exn_of_print_failure f)).
Proof.
  intros env argv.
  destruct (Nat.eq_dec (List.length argv) 3) as [Hlen|Hlen].
  2:{ rewrite (run_wrong_argc env argv Hlen). run_trace_cases. }
  destruct (run_3_args argv Hlen) as (prog & inp & out & -> & H1 & H2).
  rewrite H1, H2, run_cases.
  destruct (final_suffix inp) as [suffix|]; [|run_trace_cases].
  destruct (negb (String.eqb suffix ".obj")); [run_trace_cases|].
  destruct (read_text env inp) as [text|] eqn:Hr; [|run_trace_cases].
  destruct (parse_text text) as [e|parsed] eqn:Hp; [run_trace_cases|].
  destruct (print_fails env (vertices_message parsed)); [run_trace_cases|].
  destruct (print_fails env (indices_message parsed)); [run_trace_cases|].
  destruct (print_fails env (uvs_message parsed)); [run_trace_cases|].
  destruct (json_dumps parsed) as [json_p|] eqn:Hj; [|run_trace_cases].
  pose proof (json_dumps_Some _ _ Hj) as ->.
  destruct (can_write env out); [|run_trace_cases].
  destruct (write_fails env out) eqn:Hwf.
  { run_trace_cases. inversion He. right; left. now exists out. }
  destruct (print_fails env (export_message out)) as [f|] eqn:H4;
    run_trace_cases.
  - split; [reflexivity|]. now exists inp, text, parsed.
  - inversion He. right; right. now exists out, f.
  - split; [reflexivity|]. now exists inp, text, parsed.
Qed.




(** The raises after the parsing, evaluated. The face line [f -9...9],
    with as many nines as [int] accepts, is parsed to an index of one digit
    more, which [json.dumps] does not write: the run raises [ValueError]
    after the counts, and the output is not opened. When the report cannot
    be printed, the run raises after it has written the file. When the
    write is refused, the run raises [OSError] with the output open. *)
Lemma late_raises_evaluated :
  run (one_file "mesh.obj" ("f -" ++ nines 4300)%string)
      ["mesh_converter.py"; "mesh.obj"; "mesh.json"]
  = (inl ValueError,
     [EOpen "mesh.obj" "r"; EPrint "Parsed 0 vertices";
      EPrint "Parsed 1 indices"; EPrint "Parsed 0 UVs"])
  /\ run (mkEnv (fun _ => Some "v 1 2 3") (fun _ => true) (fun _ => false)
                (fun s => if String.eqb s (export_message "mesh.json")
                          then Some PrintValueError else None))
         ["mesh_converter.py"; "mesh.obj"; "mesh.json"]
     = (inl ValueError,
        parsed_trace "mesh.obj"
          (mkDoc [mkVertex (Py.float_of_Z 1) (Py.float_of_Z 2) (Py.float_of_Z 3)]
                 [] [] 4)
        ++ [EOpen "mesh.json" "w";
            EWrite "mesh.json"
              (json_value
                 (mkDoc [mkVertex (Py.float_of_Z 1) (Py.float_of_Z 2)
                                  (Py.float_of_Z 3)] [] [] 4))])
  /\ run (mkEnv (fun _ => Some "v 1 2 3") (fun _ => true) (fun _ => true)
                (fun _ => None))
         ["mesh_converter.py"; "mesh.obj"; "/dev/full"]
     = (inl OSError,
        failed_write_trace "mesh.obj" "/dev/full"
          (mkDoc [mkVertex (Py.float_of_Z 1) (Py.float_of_Z 2) (Py.float_of_Z 3)]
                 [] [] 4)).
Proof. repeat split; vm_compute; reflexivity. Qed.

(** ** What is printed *)

(** X16. The three counts that a successful run prints are, in this order,
    the number of [v] lines of the input, the number of face references of
    its [f] lines (not the number of faces), and the number of its [vt]
    lines. *)
Theorem printed_counts_are_line_counts :
  forall env argv tr,
    run env argv = (inr tt, tr) ->
    exists inp text,
      Py.index argv 1 = Some inp
      /\ read_text env inp = Some text
      /\ nth_error tr 1 =
         Some (EPrint ("Parsed " ++ Py.str_of_nat (List.length
                 (filter (has_marker "v") (Py.iter_lines text))) ++ " vertices"))
      /\ nth_error tr 2 =
         Some (EPrint ("Parsed " ++ Py.str_of_nat (List.length
                 (flat_map params (filter (has_marker "f") (Py.iter_lines text))))
                 ++ " indices"))
      /\ nth_error tr 3 =
         Some (EPrint ("Parsed " ++ Py.str_of_nat (List.length
                 (filter (has_marker "vt") (Py.iter_lines text))) ++ " UVs")).
Proof.
  intros env argv tr H.
  destruct (run_returns_inv _ _ _ H)
    as (prog & inp & out & text & parsed & -> & _ & Hr & Hp & _ & ->).
  exists inp, text. split; [reflexivity|]. split; [exact Hr|].
  apply parse_text_inr in Hp.
  pose proof (Forall2_length (face_lines_refs _ (parse_lines_inr_ok _ _ _ Hp)))
    as Hi.
  destruct (parse_lines_order _ _ _ Hp) as (vs & us & Hvs & Hus & E).
  apply Forall2_length in Hvs, Hus. subst parsed.
  cbn [success_trace parsed_trace app nth_error Vertices Indices UVs new_parsed].
  now rewrite Hvs, Hus, Hi.
Qed.

Lemma printed_counts_are_line_counts_witness :
  exists tr,
    run (one_file "quad.obj" "f 1 2 3 4") ["mesh_converter.py"; "quad.obj"; "quad.json"]
      = (inr tt, tr)
    /\ nth_error tr 2 = Some (EPrint "Parsed 4 indices").
Proof.
  eexists. split; [vm_compute; reflexivity|].
  destruct (printed_counts_are_line_counts
              (one_file "quad.obj" "f 1 2 3 4")
              ["mesh_converter.py"; "quad.obj"; "quad.json"] _ eq_refl)
    as (inp & text & Hi & Hr & _ & H2 & _).
  inversion Hi; subst inp. inversion Hr; subst text. exact H2.
Defined.

(** ** Lines of different kinds *)

Lemma parse_line_tokens l l' :
  tokens l = tokens l' -> parse_line l = parse_line l'.
Proof.
  intros H. unfold parse_line. fold (tokens l) (tokens l'). now rewrite H.
Qed.

Lemma line_output_tokens l l' :
  tokens l = tokens l' -> line_output l = line_output l'.
Proof. intros H. unfold line_output. now rewrite (parse_line_tokens _ _ H). Qed.

Lemma map_line_output_tokens ls ls' :
  map tokens ls = map tokens ls' -> map line_output ls = map line_output ls'.
Proof.
  revert ls'. induction ls as [|l ls IH]; intros [|l' ls'] H;
    try discriminate; [reflexivity|].
  cbn [map] in *. inversion H.
  f_equal; [now apply line_output_tokens|now apply IH].
Qed.

Lemma Forall2_same_key {A K B} (key : A -> K) (R : A -> B -> Prop) :
  (forall a a' b b', key a = key a' -> R a b -> R a' b' -> b = b') ->
  forall l l' bs bs',
    map key l = map key l' ->
    Forall2 R l bs -> Forall2 R l' bs' -> bs = bs'.
Proof.
  intros HR l l' bs bs' Hk H. revert l' bs' Hk.
  induction H as [|a b l bs Hab _ IH]; intros l' bs' Hk H';
    inversion H'; subst; try discriminate.
  - reflexivity.
  - cbn [map] in Hk. inversion Hk.
    f_equal; [eapply HR; eauto|eapply IH; eauto].
Qed.

(** X17. Each sequence of the document depends on the lines of its own
    kind alone: two files that are parsed to the end and whose [v] lines
    have the same tokens, in the same order, have the same [Vertices],
    however their other lines differ or stand between them; so for [vt]
    and [UVs], and for [f] and [Indices]. *)
Theorem sequence_depends_on_its_lines :
  forall text1 text2 parsed1 parsed2,
    parse_text text1 = inr parsed1 ->
    parse_text text2 = inr parsed2 ->
    (map tokens (filter (has_marker "v") (Py.iter_lines text1))
     = map tokens (filter (has_marker "v") (Py.iter_lines text2)) ->
     Vertices parsed1 = Vertices parsed2)
    /\ (map tokens (filter (has_marker "vt") (Py.iter_lines text1))
        = map tokens (filter (has_marker "vt") (Py.iter_lines text2)) ->
        UVs parsed1 = UVs parsed2)
    /\ (map tokens (filter (has_marker "f") (Py.iter_lines text1))
        = map tokens (filter (has_marker "f") (Py.iter_lines text2)) ->
        Indices parsed1 = Indices parsed2).
Proof.
  intros text1 text2 parsed1 parsed2 H1 H2.
  apply parse_text_inr in H1, H2.
  destruct (parse_lines_order _ _ _ H1) as (vs1 & us1 & Hv1 & Hu1 & ->).
  destruct (parse_lines_order _ _ _ H2) as (vs2 & us2 & Hv2 & Hu2 & ->).
  cbn [Vertices Indices UVs new_parsed app].
  split; [|split]; intros E.
  - eapply (Forall2_same_key tokens); [|exact E|exact Hv1|exact Hv2].
    intros a a' b b' Hk Hb Hb'. cbv beta in *.
    rewrite (line_output_tokens _ _ Hk) in Hb. congruence.
  - eapply (Forall2_same_key tokens); [|exact E|exact Hu1|exact Hu2].
    intros a a' b b' Hk Hb Hb'. cbv beta in *.
    rewrite (line_output_tokens _ _ Hk) in Hb. congruence.
  - rewrite !flat_map_concat_map, <- !(map_map line_output Indices).
    now rewrite (map_line_output_tokens _ _ E).
Qed.

Lemma sequence_depends_on_its_lines_witness :
  let text1 := ("v 1 2 3" ++ String Py.LF ("f 1 1 1" ++ String Py.LF "v 4 5 6"))%string in
  let text2 := ("# two vertices" ++ String Py.LF ("v 1 2 3" ++ String Py.LF
                ("v 4 5 6" ++ String Py.LF "vt 0 0")))%string in
  let vs := [mkVertex (Py.float_of_Z 1) (Py.float_of_Z 2) (Py.float_of_Z 3);
             mkVertex (Py.float_of_Z 4) (Py.float_of_Z 5) (Py.float_of_Z 6)] in
  let parsed1 := mkDoc vs [0; 0; 0]%Z [] 4 in
  let parsed2 := mkDoc vs [] [mkUV (Py.float_of_Z 0) (Py.float_of_Z 0)] 4 in
  parse_text text1 = inr parsed1
  /\ parse_text text2 = inr parsed2
  /\ Vertices parsed1 = Vertices parsed2.
Proof.
  intros text1 text2 vs parsed1 parsed2.
  assert (H1 : parse_text text1 = inr parsed1) by (vm_compute; reflexivity).
  assert (H2 : parse_text text2 = inr parsed2) by (vm_compute; reflexivity).
  split; [exact H1|]. split; [exact H2|].
  exact (proj1 (sequence_depends_on_its_lines text1 text2 _ _ H1 H2) eq_refl).
Defined.
